(** * Date module of faker: constrained random dates and date vocabulary

    A shallow embedding of the date module of the library (the function
    [toDate] and the classes [SimpleDateModule] and [DateModule]) together
    with the ECMAScript [Date] operations that the module calls.

    Modelling conventions.
    - A JavaScript number is modelled by [number]: an integer-valued double
      ([Fin z]) or [NaN].  Time values of valid dates are integers of
      magnitude at most 8.64e15 < 2^53, on which double arithmetic is exact.
      The numeric options [years], [days], [min], [max] and [count] are
      taken to be integers.
    - [Date] objects are mutable and passed by reference: they live in a
      heap ([list number], one time value per object) and are named by
      their index.  Every method is a computation on a state made of this
      heap and of the state of the random source, and either returns a
      value or throws a [FakerError].
    - An options object is rendered by the arguments of the method (or by a
      record); an omitted property is [None], or [VUndefined] for a date.
    - The collaborators that are not part of the module (the random source,
      the locale tables, the text parser of [Date], the configured
      reference date) are the fields of the class [Collaborators]; what the
      specification promises about them is a hypothesis of the theorems
      that need it. *)

From stdpp Require Import base numbers option list strings gmap sorting.

Local Open Scope Z_scope.

(** ** ECMAScript time values and calendar arithmetic (ECMA-262, 21.4.1) *)

Module ES.

Definition msPerDay : Z := 86400000.

Definition Day (t : Z) : Z := t / msPerDay.

Definition TimeWithinDay (t : Z) : Z := t mod msPerDay.

Definition InLeapYearOf (y : Z) : bool :=
  (y mod 4 =? 0) && (negb (y mod 100 =? 0) || (y mod 400 =? 0)).

Definition DaysInYear (y : Z) : Z := if InLeapYearOf y then 366 else 365.

Definition DayFromYear (y : Z) : Z :=
  365 * (y - 1970) + (y - 1969) / 4 - (y - 1901) / 100 + (y - 1601) / 400.

Definition TimeFromYear (y : Z) : Z := msPerDay * DayFromYear y.

(** [YearFromTime t] is the largest [y] with [TimeFromYear y <= t].  It is
    computed from the estimate given by the 400-year cycle of 146097 days,
    which is off by at most one year (lemma [YearFromTime_spec]). *)
Definition YearFromTime (t : Z) : Z :=
  let d := Day t in
  let y0 := 1970 + (400 * d) / 146097 in
  if d <? DayFromYear y0 then y0 - 1
  else if DayFromYear (y0 + 1) <=? d then y0 + 1
  else y0.

Definition InLeapYear (t : Z) : Z :=
  if InLeapYearOf (YearFromTime t) then 1 else 0.

Definition DayWithinYear (t : Z) : Z := Day t - DayFromYear (YearFromTime t).

Definition MonthFromTime (t : Z) : Z :=
  let d := DayWithinYear t in
  let l := InLeapYear t in
  if d <? 31 then 0
  else if d <? 59 + l then 1
  else if d <? 90 + l then 2
  else if d <? 120 + l then 3
  else if d <? 151 + l then 4
  else if d <? 181 + l then 5
  else if d <? 212 + l then 6
  else if d <? 243 + l then 7
  else if d <? 273 + l then 8
  else if d <? 304 + l then 9
  else if d <? 334 + l then 10
  else 11.

Definition DateFromTime (t : Z) : Z :=
  let d := DayWithinYear t in
  let l := InLeapYear t in
  match MonthFromTime t with
  | 0 => d + 1
  | 1 => d - 30
  | 2 => d - 58 - l
  | 3 => d - 89 - l
  | 4 => d - 119 - l
  | 5 => d - 150 - l
  | 6 => d - 180 - l
  | 7 => d - 211 - l
  | 8 => d - 242 - l
  | 9 => d - 272 - l
  | 10 => d - 303 - l
  | _ => d - 333 - l
  end.

(** Number of days of year [y] that precede its month [mn] (0 to 11). *)
Definition monthStart (y mn : Z) : Z :=
  let l := if InLeapYearOf y then 1 else 0 in
  match mn with
  | 0 => 0
  | 1 => 31
  | 2 => 59 + l
  | 3 => 90 + l
  | 4 => 120 + l
  | 5 => 151 + l
  | 6 => 181 + l
  | 7 => 212 + l
  | 8 => 243 + l
  | 9 => 273 + l
  | 10 => 304 + l
  | _ => 334 + l
  end.

(** [MakeDay year month date]: the day number of the first day of month
    [month mod 12] of year [year + month / 12], plus [date - 1]. *)
Definition MakeDay (year month date : Z) : Z :=
  let ym := year + month / 12 in
  let mn := month mod 12 in
  DayFromYear ym + monthStart ym mn + date - 1.

Definition MakeTime (hour min sec ms : Z) : Z :=
  hour * 3600000 + min * 60000 + sec * 1000 + ms.

Definition MakeDate (day time : Z) : Z := day * msPerDay + time.

Definition maxTime : Z := 8640000000000000.

#[global] Arguments YearFromTime : simpl never.
#[global] Arguments MonthFromTime : simpl never.
#[global] Arguments DateFromTime : simpl never.
#[global] Arguments DayFromYear : simpl never.
#[global] Arguments MakeDay : simpl never.
#[global] Arguments MakeDate : simpl never.
#[global] Arguments TimeWithinDay : simpl never.

End ES.

(** ** JavaScript values *)

(** A number: [NaN] or an integer-valued double. *)
Inductive number :=
| NaN
| Fin (z : Z).

#[global] Instance number_eq_dec : EqDecision number.
Proof. solve_decision. Defined.

Definition isNaN (n : number) : bool :=
  match n with NaN => true | Fin _ => false end.

Definition num_add (a b : number) : number :=
  match a, b with Fin x, Fin y => Fin (x + y) | _, _ => NaN end.

Definition num_sub (a b : number) : number :=
  match a, b with Fin x, Fin y => Fin (x - y) | _, _ => NaN end.

(** [a < b] of JavaScript: false as soon as one side is [NaN]. *)
Definition num_lt (a b : number) : bool :=
  match a, b with Fin x, Fin y => x <? y | _, _ => false end.

(** [a > b] of JavaScript. *)
Definition num_gt (a b : number) : bool := num_lt b a.

(** A [Date] object is named by its address in the heap. *)
Definition loc := nat.

(** What a caller can pass where the source expects
    [string | Date | number], or nothing. *)
Inductive value :=
| VUndefined
| VNull
| VString (s : string)
| VNumber (n : number)
| VDate (l : loc).

(** [ToBoolean]: [!v] is [negb (truthy v)]. *)
Definition truthy (v : value) : bool :=
  match v with
  | VUndefined | VNull => false
  | VString s => negb (bool_decide (s = EmptyString))
  | VNumber NaN => false
  | VNumber (Fin z) => negb (z =? 0)
  | VDate _ => true
  end.

(** ** The [Date] builtin on time values *)

Definition TimeClip (n : number) : number :=
  match n with
  | NaN => NaN
  | Fin z => if ES.maxTime <? Z.abs z then NaN else Fin z
  end.

(** [Date.UTC(year, month, date)]: years 0 to 99 stand for 1900 to 1999. *)
Definition Date_UTC (year month date : Z) : number :=
  let yr := if (0 <=? year) && (year <=? 99) then 1900 + year else year in
  TimeClip (Fin (ES.MakeDate (ES.MakeDay yr month date) (ES.MakeTime 0 0 0 0))).

(** The year read by [getUTCFullYear] from a time value. *)
Definition UTCFullYear (t : number) : number :=
  match t with
  | NaN => NaN
  | Fin z => Fin (ES.YearFromTime z)
  end.

(** The time value stored by [setUTCFullYear(year)] in a date whose time
    value is [t]: month, day of month and time within the day are kept. *)
Definition withUTCFullYear (t year : number) : number :=
  match year with
  | NaN => NaN
  | Fin y =>
      let t0 := match t with NaN => 0 | Fin z => z end in
      TimeClip (Fin (ES.MakeDate
                       (ES.MakeDay y (ES.MonthFromTime t0) (ES.DateFromTime t0))
                       (ES.TimeWithinDay t0)))
  end.

(** ** Errors, locale tables, options *)

Inductive RangeDetail :=
| FromAfterTo                         (* '`from` date must be before `to` date.' *)
| MaxBelowMin (max min : option Z).   (* 'Max ${options.max} should be larger than or equal to min ${options.min}.' *)

(** The [FakerError]s of the module, by the class the specification gives
    them. *)
Inductive FakerError :=
| InvalidDateError (name : string) (date : value)   (* 'Invalid ${name} date: ${date.toString()}' *)
| MissingBoundsError                  (* 'Must pass an options object with `from` and `to` values.' *)
| InvalidRangeError (detail : RangeDetail)
| InvalidArgumentError (what : string)  (* '${what} must be greater than 0.' *)
| LocaleDataError (path type : string).

(** A property of a locale entry that is present: [null] or a string list. *)
Inductive entry :=
| ENull
| EList (values : list string).

(** [x != null], for the property read [source[key]] ([None]: undefined). *)
Definition not_nullish (x : option entry) : bool :=
  match x with
  | Some (EList _) => true
  | _ => false
  end.

Inductive CountSpec :=
| Fixed (n : Z)
| Range (min max : Z).

(** The options object of [between] and [betweens]; [between] does not
    read [count].  An omitted property is [VUndefined] or [None]. *)
Record RangeOptions := {
  from : value;
  to : value;
  count : option CountSpec;
}.

Inductive Mode := age | year.

Record BirthdateOptions := {
  min : option Z;
  max : option Z;
  mode : option Mode;
  refDate : value;
}.

(** ** Collaborators *)

(** What the module consumes from the rest of the library and from the
    host: the state of the random source with [faker.number.int] and
    [faker.helpers.arrayElement], the reference date that
    [faker.defaultRefDate()] is configured with, the month and weekday
    tables of [faker.definitions.date], and the implementation-defined
    text parser of [Date]. *)
Class Collaborators := {
  Gen : Type;
  number_int : number → number → Gen → number * Gen;
  arrayElement : list string → Gen → string * Gen;
  defaultRefDate : number;
  definitions_date_month : gmap string entry;
  definitions_date_weekday : gmap string entry;
  Date_parse : string → number;
}.

(** ** State and control: a heap of dates, the random source, exceptions *)

Section DateModule.
Context `{Collaborators}.

Record state := State {
  heap : list number;
  gen : Gen;
}.

Inductive outcome (A : Type) :=
| Ok (a : A)
| Throw (e : FakerError).
#[global] Arguments Ok {A} a.
#[global] Arguments Throw {A} e.

Definition M (A : Type) : Type := state → outcome A * state.

#[global] Instance M_ret : MRet M := λ A a s, (Ok a, s).

#[global] Instance M_bind : MBind M := λ A B k m s,
  match m s with
  | (Ok a, s') => k a s'
  | (Throw e, s') => (Throw e, s')
  end.

Definition throw {A} (e : FakerError) : M A := λ s, (Throw e, s).

(** The time value of the date at [d] ([NaN]: an invalid date). *)
Definition timeValue (h : list number) (d : loc) : number :=
  default NaN (h !! d).

(** The time value that [new Date(v)] stores. *)
Definition Date_value (h : list number) (v : value) : number :=
  TimeClip
    match v with
    | VUndefined => NaN
    | VNull => Fin 0
    | VString s => Date_parse s
    | VNumber n => n
    | VDate d => timeValue h d
    end.

(** [new Date(v)]: a new object, at the first free address. *)
Definition new_Date (v : value) : M loc := λ s,
  (Ok (length (heap s)),
   {| heap := heap s ++ [Date_value (heap s) v]; gen := gen s |}).

Definition getTime (d : loc) : M number := λ s, (Ok (timeValue (heap s) d), s).

Definition getUTCFullYear (d : loc) : M number := λ s,
  (Ok (UTCFullYear (timeValue (heap s) d)), s).

(** [d.setUTCFullYear(year)] updates [d] in place and returns the new time
    value. *)
Definition setUTCFullYear (d : loc) (year : number) : M number := λ s,
  let v := withUTCFullYear (timeValue (heap s) d) year in
  (Ok v, {| heap := <[d := v]> (heap s); gen := gen s |}).

(** [this.faker.number.int({ min, max })]. *)
Definition faker_number_int (min max : number) : M number := λ s,
  let '(r, g) := number_int min max (gen s) in
  (Ok r, {| heap := heap s; gen := g |}).

(** [this.faker.helpers.arrayElement(values)]. *)
Definition faker_arrayElement (values : list string) : M string := λ s,
  let '(r, g) := arrayElement values (gen s) in
  (Ok r, {| heap := heap s; gen := g |}).

(** Modelled from the spec: [faker.defaultRefDate()], the
    "defaultReferenceInstant() -> DateValue" of section 6, a date object
    holding the configured reference instant. *)
Definition faker_defaultRefDate : M value := λ s,
  (Ok (VDate (length (heap s))),
   {| heap := heap s ++ [defaultRefDate]; gen := gen s |}).

(** The destructuring default [refDate = this.faker.defaultRefDate()]. *)
Definition refDate_or_default (refDate : value) : M value :=
  match refDate with
  | VUndefined => faker_defaultRefDate
  | v => mret v
  end.

(** ** [toDate] *)

Definition toDate (date : value) (name : string) : M loc :=
  converted ← new_Date date;
  t ← getTime converted;
  if isNaN t then throw (InvalidDateError name date)
  else mret converted.

(** ** [SimpleDateModule] *)

Definition between (options : option RangeOptions) : M loc :=
  match options with
  | None => throw MissingBoundsError
  | Some o =>
      if negb (truthy (from o)) || negb (truthy (to o))
      then throw MissingBoundsError
      else
        f ← toDate (from o) "from";
        fromMs ← getTime f;
        t ← toDate (to o) "to";
        toMs ← getTime t;
        if num_gt fromMs toMs
        then throw (InvalidRangeError FromAfterTo)
        else
          r ← faker_number_int fromMs toMs;
          new_Date (VNumber r)
  end.

(** The object literal [{ from: ..., to: ... }] that a policy passes to
    [between]. *)
Definition window (lo hi : number) : option RangeOptions :=
  Some {| from := VNumber lo; to := VNumber hi; count := None |}.

Definition anytime_window (time : number) : option RangeOptions :=
  window (num_sub time (Fin (1000 * 60 * 60 * 24 * 365)))
         (num_add time (Fin (1000 * 60 * 60 * 24 * 365))).

Definition anytime (refDate : value) : M loc :=
  refDate ← refDate_or_default refDate;
  d ← toDate refDate "refDate";
  time ← getTime d;
  between (anytime_window time).

Definition past_window (years : Z) (time : number) : option RangeOptions :=
  window (num_sub time (Fin (years * 365 * 24 * 3600 * 1000)))
         (num_sub time (Fin 1000)).

Definition past (years : option Z) (refDate : value) : M loc :=
  let years := default 1 years in
  refDate ← refDate_or_default refDate;
  if years <=? 0 then throw (InvalidArgumentError "Years")
  else
    d ← toDate refDate "refDate";
    time ← getTime d;
    between (past_window years time).

Definition future_window (years : Z) (time : number) : option RangeOptions :=
  window (num_add time (Fin 1000))
         (num_add time (Fin (years * 365 * 24 * 3600 * 1000))).

Definition future (years : option Z) (refDate : value) : M loc :=
  let years := default 1 years in
  refDate ← refDate_or_default refDate;
  if years <=? 0 then throw (InvalidArgumentError "Years")
  else
    d ← toDate refDate "refDate";
    time ← getTime d;
    between (future_window years time).

Definition recent_window (days : Z) (time : number) : option RangeOptions :=
  window (num_sub time (Fin (days * 24 * 3600 * 1000)))
         (num_sub time (Fin 1000)).

Definition recent (days : option Z) (refDate : value) : M loc :=
  let days := default 1 days in
  refDate ← refDate_or_default refDate;
  if days <=? 0 then throw (InvalidArgumentError "Days")
  else
    d ← toDate refDate "refDate";
    time ← getTime d;
    between (recent_window days time).

Definition soon_window (days : Z) (time : number) : option RangeOptions :=
  window (num_add time (Fin 1000))
         (num_add time (Fin (days * 24 * 3600 * 1000))).

Definition soon (days : option Z) (refDate : value) : M loc :=
  let days := default 1 days in
  refDate ← refDate_or_default refDate;
  if days <=? 0 then throw (InvalidArgumentError "Days")
  else
    d ← toDate refDate "refDate";
    time ← getTime d;
    between (soon_window days time).

(** Modelled from the spec: the repetition of [faker.helpers.multiple], the
    "repeat(factory, count: CountSpec) -> sequence of T" of section 6: the
    factory runs [n] times, in order. *)
Fixpoint times {A} (n : nat) (method : M A) : M (list A) :=
  match n with
  | O => mret []
  | S n => x ← method; xs ← times n method; mret (x :: xs)
  end.

(** Modelled from the spec: the count that a [CountSpec] resolves to, "a
    fixed non-negative integer or a {min, max} inclusive bound consumed by
    the repetition collaborator to choose how many samples to draw"
    (section 3). *)
Definition rangeToNumber (c : CountSpec) : M number :=
  match c with
  | Fixed n => mret (Fin n)
  | Range lo hi => faker_number_int (Fin lo) (Fin hi)
  end.

(** Modelled from the spec: [faker.helpers.multiple(method, { count })]. *)
Definition faker_multiple {A} (method : M A) (count : CountSpec) : M (list A) :=
  n ← rangeToNumber count;
  times (match n with Fin k => Z.to_nat k | NaN => O end) method.

(** [Array.prototype.sort(compare)]: [a] may stay before [b] unless
    [compare(a, b) > 0]; a [NaN] result counts as [0]. *)
Definition sort_before {A} (compare : A → A → number) : relation A :=
  λ a b, match compare a b with Fin v => v <= 0 | NaN => True end.

#[global] Instance sort_before_dec {A} (compare : A → A → number) a b :
  Decision (sort_before compare a b).
Proof. unfold sort_before. destruct (compare a b); apply _. Defined.

Definition Array_sort {A} (compare : A → A → number) (l : list A) : list A :=
  merge_sort (sort_before compare) l.

(** [.sort((a, b) => a.getTime() - b.getTime())] *)
Definition sort_by_time (dates : list loc) : M (list loc) := λ s,
  (Ok (Array_sort
         (λ a b, num_sub (timeValue (heap s) a) (timeValue (heap s) b)) dates),
   s).

Definition betweens (options : option RangeOptions) : M (list loc) :=
  match options with
  | None => throw MissingBoundsError
  | Some o =>
      if negb (truthy (from o)) || negb (truthy (to o))
      then throw MissingBoundsError
      else
        let count := default (Fixed 3) (count o) in
        dates ← faker_multiple
                  (between (Some {| from := from o; to := to o; count := None |}))
                  count;
        sort_by_time dates
  end.

(** The two bounds [min] and [max] that [birthdate] computes ("Convert to
    epoch timestamps"). *)
Definition birthdate_bounds (options : BirthdateOptions) (mode : Mode)
    (date : loc) (refYear : number) : M (number * number) :=
  match mode with
  | age =>
      d1 ← new_Date (VDate date);
      lo ← setUTCFullYear d1
             (num_sub (num_sub refYear (Fin (default 80 (max options)))) (Fin 1));
      d2 ← new_Date (VDate date);
      hi ← setUTCFullYear d2 (num_sub refYear (Fin (default 18 (min options))));
      mret (lo, hi)
  | year =>
      d1 ← new_Date (VNumber (Date_UTC 0 0 2));
      lo ← setUTCFullYear d1
             (match min options with
              | Some y => Fin y
              | None => num_sub refYear (Fin 80)
              end);
      d2 ← new_Date (VNumber (Date_UTC 0 11 30));
      hi ← setUTCFullYear d2
             (match max options with
              | Some y => Fin y
              | None => num_sub refYear (Fin 19)
              end);
      mret (lo, hi)
  end.

Definition birthdate (options : BirthdateOptions) : M loc :=
  let mode' := default year (mode options) in
  refDate ← refDate_or_default (refDate options);
  date ← toDate refDate "refDate";
  refYear ← getUTCFullYear date;
  '(lo, hi) ← birthdate_bounds options mode' date refYear;
  if num_lt hi lo
  then throw (InvalidRangeError (MaxBelowMin (max options) (min options)))
  else
    r ← faker_number_int lo hi;
    new_Date (VNumber r).

(** ** [DateModule] *)

(** Modelled from the spec: [assertLocaleData], the assertion collaborator
    of section 4.6, which fails "when the resolved variant is absent or
    empty for the active locale". *)
Definition assertLocaleData (values : option entry) (path type : string)
    : M (list string) :=
  match values with
  | Some (EList (v :: vs)) => mret (v :: vs)
  | _ => throw (LocaleDataError path type)
  end.

Definition month (abbreviated context : option bool) : M string :=
  let abbreviated := default false abbreviated in
  let context := default false context in
  let source := definitions_date_month in
  let type :=
    if abbreviated then
      let useContext := context && not_nullish (source !! "abbr_context") in
      if useContext then "abbr_context" else "abbr"
    else
      let useContext := context && not_nullish (source !! "wide_context") in
      if useContext then "wide_context" else "wide" in
  values ← assertLocaleData (source !! type) "date.month" type;
  faker_arrayElement values.

Definition weekday (abbreviated context : option bool) : M string :=
  let abbreviated := default false abbreviated in
  let context := default false context in
  let source := definitions_date_weekday in
  let type :=
    if abbreviated then
      let useContext := context && not_nullish (source !! "abbr_context") in
      if useContext then "abbr_context" else "abbr"
    else
      let useContext := context && not_nullish (source !! "wide_context") in
      if useContext then "wide_context" else "wide" in
  values ← assertLocaleData (source !! type) "date.weekday" type;
  faker_arrayElement values.

(** ** Observations *)

(** The outcome of a computation that returns a date, with the date read
    back as its time value. *)
Definition instant (m : M loc) (s : state) : outcome number :=
  match m s with
  | (Ok d, s') => Ok (timeValue (heap s') d)
  | (Throw e, _) => Throw e
  end.

(** The same for a computation that returns an array of dates. *)
Definition instants (m : M (list loc)) (s : state) : outcome (list number) :=
  match m s with
  | (Ok ds, s') => Ok (timeValue (heap s') <$> ds)
  | (Throw e, _) => Throw e
  end.

(** The outcome alone. *)
Definition result {A} (m : M A) (s : state) : outcome A := (m s).1.

End DateModule.

(** ** The windows and the variant as the specification words them *)

Module Spec.

Definition day_ms : Z := 86400000.
Definition year_ms : Z := 365 * day_ms.

(** Section 4.3, the table of single-window policies. *)
Definition past_window (years : Z) (ref : Z) : Z * Z :=
  (ref - years * year_ms, ref - 1).
Definition future_window (years : Z) (ref : Z) : Z * Z :=
  (ref + 1, ref + years * year_ms).
Definition recent_window (days : Z) (ref : Z) : Z * Z :=
  (ref - days * day_ms, ref - 1).
Definition soon_window (days : Z) (ref : Z) : Z * Z :=
  (ref + 1, ref + days * day_ms).

(** Section 4.6: "start from [abbreviated ? abbr : wide]; if [context] is
    true and the table defines a [*_context] counterpart for that base
    variant, use it instead". *)
Definition variant (table : gmap string entry) (abbreviated context : bool)
    : string :=
  let base := if abbreviated then "abbr" else "wide" in
  let counterpart := base +:+ "_context" in
  if context && not_nullish (table !! counterpart) then counterpart else base.

End Spec.


(** ** What the collaborators promise *)

(** Section 6: [randomInt(min, max)] returns an integer of the inclusive
    interval. *)
Definition int_in_range `{Collaborators} : Prop :=
  ∀ (a b : Z) (g : Gen), a <= b →
    ∃ r, (number_int (Fin a) (Fin b) g).1 = Fin r ∧ a <= r <= b.

(** Section 6: [chooseOne(list)] returns an element of the list. *)
Definition element_of_list `{Collaborators} : Prop :=
  ∀ (l : list string) (g : Gen), l ≠ [] → (arrayElement l g).1 ∈ l.

(** A bound that the missing-bounds check of section 4.2 rejects: omitted
    or [undefined], [null], or the number [0]. *)
Definition absent (v : value) : Prop :=
  v = VUndefined ∨ v = VNull ∨ v = VNumber (Fin 0).

(** The reference instant that a policy reads:
    [toDate(refDate).getTime()], with the default applied to [refDate]. *)
Definition reference `{Collaborators} (refDate : value) : M number :=
  r ← refDate_or_default refDate;
  d ← toDate r "refDate";
  getTime d.

(** A window whose two bounds pass the presence check of [between] and are
    instants that a [Date] can hold. *)
Definition usable (lo hi : Z) : Prop :=
  lo ≠ 0 ∧ hi ≠ 0 ∧ - ES.maxTime <= lo ∧ hi <= ES.maxTime.


(** A call of the module (or of its private [toDate]) with its arguments,
    and the state it leaves. *)
Inductive call :=
| call_toDate (date : value) (name : string)
| call_anytime (refDate : value)
| call_past (years : option Z) (refDate : value)
| call_future (years : option Z) (refDate : value)
| call_between (options : option RangeOptions)
| call_betweens (options : option RangeOptions)
| call_recent (days : option Z) (refDate : value)
| call_soon (days : option Z) (refDate : value)
| call_birthdate (options : BirthdateOptions)
| call_month (abbreviated context : option bool)
| call_weekday (abbreviated context : option bool).

Definition after `{Collaborators} (c : call) (s : state) : state :=
  match c with
  | call_toDate date name => (toDate date name s).2
  | call_anytime refDate => (anytime refDate s).2
  | call_past years refDate => (past years refDate s).2
  | call_future years refDate => (future years refDate s).2
  | call_between options => (between options s).2
  | call_betweens options => (betweens options s).2
  | call_recent days refDate => (recent days refDate s).2
  | call_soon days refDate => (soon days refDate s).2
  | call_birthdate options => (birthdate options s).2
  | call_month abbreviated context => (month abbreviated context s).2
  | call_weekday abbreviated context => (weekday abbreviated context s).2
  end.

(** A computation that leaves every date object of its initial state in
    place, with its time value. *)
Definition framed `{Collaborators} {A} (m : M A) : Prop :=
  ∀ s, heap s `prefix_of` heap (m s).2.

(** The two bounds that [birthdate] computes from the reference instant
    [time], in mode ['age'] and in mode ['year']. *)
Definition age_bounds (options : BirthdateOptions) (time : Z) : number * number :=
  let refYear := ES.YearFromTime time in
  (withUTCFullYear (Fin time) (Fin (refYear - default 80 (max options) - 1)),
   withUTCFullYear (Fin time) (Fin (refYear - default 18 (min options)))).

Definition year_bounds (options : BirthdateOptions) (time : Z) : number * number :=
  let refYear := ES.YearFromTime time in
  (withUTCFullYear (Date_UTC 0 0 2) (Fin (default (refYear - 80) (min options))),
   withUTCFullYear (Date_UTC 0 11 30) (Fin (default (refYear - 19) (max options)))).

Definition mode_bounds (options : BirthdateOptions) (time : Z) : number * number :=
  match default year (mode options) with
  | age => age_bounds options time
  | year => year_bounds options time
  end.

(** Years all of whose days are instants that a [Date] can hold. *)
Definition representable_year (y : Z) : Prop := -271821 < y < 275760.

(** ** Sample collaborators

    A linear congruential generator as random source, a two-entry parser
    and English tables without contextual forms. *)

Module Sample.

Definition step (g : Z) : Z := (g * 1103515245 + 12345) mod 2147483648.

Definition lcg_int (lo hi : number) (g : Z) : number * Z :=
  match lo, hi with
  | Fin a, Fin b =>
      if a <=? b then (Fin (a + g mod (b - a + 1)), step g) else (NaN, step g)
  | _, _ => (NaN, step g)
  end.

Definition lcg_element (l : list string) (g : Z) : string * Z :=
  (nth (Z.to_nat (g mod Z.of_nat (length l))) l EmptyString, step g).

Definition parse (s : string) : number :=
  if bool_decide (s = "2020-01-01T00:00:00.000Z"%string) then Fin 1577836800000
  else if bool_decide (s = "2030-01-01T00:00:00.000Z"%string) then Fin 1893456000000
  else NaN.

Definition month : gmap string entry :=
  <[ "wide"%string :=
       EList ["January"; "February"; "March"; "April"; "May"; "June"; "July";
              "August"; "September"; "October"; "November"; "December"]%string ]>
  (<[ "abbr"%string :=
       EList ["Jan"; "Feb"; "Mar"; "Apr"; "May"; "Jun"; "Jul"; "Aug"; "Sep";
              "Oct"; "Nov"; "Dec"]%string ]> ∅).

Definition weekday : gmap string entry :=
  <[ "wide"%string :=
       EList ["Sunday"; "Monday"; "Tuesday"; "Wednesday"; "Thursday";
              "Friday"; "Saturday"]%string ]>
  (<[ "abbr"%string :=
       EList ["Sun"; "Mon"; "Tue"; "Wed"; "Thu"; "Fri"; "Sat"]%string ]> ∅).

(** 2020-01-01T00:00:00.000Z *)
Definition ref2020 : Z := 1577836800000.

Definition collaborators : Collaborators := {|
  Gen := Z;
  number_int := lcg_int;
  arrayElement := lcg_element;
  defaultRefDate := Fin ref2020;
  definitions_date_month := month;
  definitions_date_weekday := weekday;
  Date_parse := parse;
|}.

(** An empty heap and the seed [g]. *)
Definition start (g : Z) : @state collaborators := @State collaborators [] g.

(** A heap that holds one date, the reference, and the seed [g]. *)
Definition with_ref (g : Z) : @state collaborators :=
  @State collaborators [Fin ref2020] g.

End Sample.

(** 1954-01-01T00:00:00.000Z and 2002-01-01T00:00:00.000Z *)
Definition jan1954 : Z := -504921600000.
Definition jan2002 : Z := 1009843200000.

(** [{ min: 18, max: 65, mode: 'age', refDate }] *)
Definition adults (refDate : value) : BirthdateOptions :=
  {| min := Some 18; max := Some 65; mode := Some age; refDate := refDate |}.

(** [{ min: lo, max: hi, mode: 'year', refDate }] *)
Definition years (lo hi : Z) (refDate : value) : BirthdateOptions :=
  {| min := Some lo; max := Some hi; mode := Some year; refDate := refDate |}.

(** ** Notions for the further properties *)

(** The error of an outcome, if any. *)
Definition thrown {A} (r : outcome A) : option FakerError :=
  match r with
  | Ok _ => None
  | Throw e => Some e
  end.

(** The error that a call throws, if any. *)
Definition failure `{Collaborators} (c : call) (s : state) : option FakerError :=
  match c with
  | call_toDate date name => thrown (toDate date name s).1
  | call_anytime refDate => thrown (anytime refDate s).1
  | call_past years refDate => thrown (past years refDate s).1
  | call_future years refDate => thrown (future years refDate s).1
  | call_between options => thrown (between options s).1
  | call_betweens options => thrown (betweens options s).1
  | call_recent days refDate => thrown (recent days refDate s).1
  | call_soon days refDate => thrown (soon days refDate s).1
  | call_birthdate options => thrown (birthdate options s).1
  | call_month abbreviated context => thrown (month abbreviated context s).1
  | call_weekday abbreviated context => thrown (weekday abbreviated context s).1
  end.

(** An argument that, when it is a [Date] object, is one of the heap [h]. *)
Definition existing (h : list number) (v : value) : Prop :=
  match v with
  | VDate d => (d < length h)%nat
  | _ => True
  end.

(** [n] successive draws of [faker.number.int({ min: lo, max: hi })], with
    the state of the random source after them. *)
Fixpoint draws `{Collaborators} (n : nat) (lo hi : number) (g : Gen)
    : list number * Gen :=
  match n with
  | O => ([], g)
  | S n =>
      let '(r, g1) := number_int lo hi g in
      let '(rs, g2) := draws n lo hi g1 in
      (r :: rs, g2)
  end.

(** A computation that leaves the random source as it was. *)
Definition keeps_gen `{Collaborators} {A} (m : M A) : Prop :=
  ∀ s, gen (m s).2 = gen s.

(** A computation that, when it throws, has left the random source as it
    was. *)
Definition quiet `{Collaborators} {A} (m : M A) : Prop :=
  ∀ s e, (m s).1 = Throw e → gen (m s).2 = gen s.

(** The number of days of month [m] (0 to 11) in a year that is leap
    ([l = 1]) or not ([l = 0]). *)
Definition days_in_month (m l : Z) : Z :=
  match m with
  | 1 => 28 + l
  | 3 | 5 | 8 | 10 => 30
  | _ => 31
  end.

(** [lia] extended with the equations of division and remainder. *)
Ltac zlia := Z.div_mod_to_equations; lia.

(** * Properties *)

(** ** Calendar arithmetic *)

Section CalendarFacts.
Import ES.

Lemma YearFromDay_spec (t : Z) :
  DayFromYear (YearFromTime t) <= Day t < DayFromYear (YearFromTime t + 1).
Proof.
  unfold YearFromTime. generalize (Day t). intros d.
  repeat case_match; unfold DayFromYear in *; zlia.
Qed.

Lemma YearFromTime_spec (t : Z) :
  TimeFromYear (YearFromTime t) <= t < TimeFromYear (YearFromTime t + 1).
Proof.
  pose proof (YearFromDay_spec t) as H. revert H.
  unfold TimeFromYear, Day, msPerDay.
  generalize (DayFromYear (YearFromTime t)) (DayFromYear (YearFromTime t + 1)).
  intros a b. zlia.
Qed.

Lemma DayFromYear_succ (y : Z) :
  DayFromYear (y + 1) = DayFromYear y + DaysInYear y.
Proof.
  unfold DayFromYear, DaysInYear, InLeapYearOf.
  destruct (Z.eqb_spec (y mod 4) 0), (Z.eqb_spec (y mod 100) 0),
    (Z.eqb_spec (y mod 400) 0); simpl; zlia.
Qed.

Lemma DaysInYear_bounds (y : Z) : 365 <= DaysInYear y <= 366.
Proof. unfold DaysInYear. case_match; lia. Qed.

Lemma DayFromYear_add (y : Z) (n : nat) :
  DayFromYear y + 365 * Z.of_nat n <= DayFromYear (y + Z.of_nat n)
    <= DayFromYear y + 366 * Z.of_nat n.
Proof.
  induction n as [|n IH].
  - replace (y + Z.of_nat 0) with y by lia. lia.
  - replace (y + Z.of_nat (S n)) with (y + Z.of_nat n + 1) by lia.
    rewrite DayFromYear_succ.
    pose proof (DaysInYear_bounds (y + Z.of_nat n)). lia.
Qed.

Lemma DayFromYear_mono (y y' : Z) :
  y <= y' → DayFromYear y + 365 * (y' - y) <= DayFromYear y'.
Proof.
  intros Hy. pose proof (DayFromYear_add y (Z.to_nat (y' - y))) as H.
  rewrite Z2Nat.id in H by lia. replace (y + (y' - y)) with y' in H by lia. lia.
Qed.

(** The year of a time value is the only year whose days contain it. *)
Lemma YearFromTime_unique (t y : Z) :
  DayFromYear y <= Day t < DayFromYear (y + 1) → YearFromTime t = y.
Proof.
  intros Hy. pose proof (YearFromDay_spec t) as Ht.
  destruct (Z.lt_trichotomy (YearFromTime t) y) as [Hlt|[Heq|Hgt]]; [|done|].
  - pose proof (DayFromYear_mono (YearFromTime t + 1) y). lia.
  - pose proof (DayFromYear_mono (y + 1) (YearFromTime t)). lia.
Qed.

Lemma YearFromTime_mono (t t' : Z) : t <= t' → YearFromTime t <= YearFromTime t'.
Proof.
  intros Hle. pose proof (YearFromDay_spec t) as Ht.
  pose proof (YearFromDay_spec t') as Ht'.
  assert (Day t <= Day t') by (unfold Day, msPerDay; zlia).
  destruct (Z_le_gt_dec (YearFromTime t) (YearFromTime t')) as [|Hgt]; [done|].
  pose proof (DayFromYear_mono (YearFromTime t' + 1) (YearFromTime t)). lia.
Qed.

Lemma YearFromTime_largest (t y : Z) :
  TimeFromYear y <= t → y <= YearFromTime t.
Proof.
  intros Hy. pose proof (YearFromTime_spec t) as Ht. unfold TimeFromYear in *.
  destruct (Z_le_gt_dec y (YearFromTime t)) as [|Hgt]; [done|].
  pose proof (DayFromYear_mono (YearFromTime t + 1) y). unfold msPerDay in *.
  lia.
Qed.

Lemma DayWithinYear_bounds (t : Z) :
  0 <= DayWithinYear t < 365 + InLeapYear t.
Proof.
  unfold DayWithinYear, InLeapYear. pose proof (YearFromDay_spec t) as Ht.
  rewrite DayFromYear_succ in Ht. unfold DaysInYear in Ht.
  destruct (InLeapYearOf _); lia.
Qed.

Lemma MonthFromTime_bounds (t : Z) : 0 <= MonthFromTime t <= 11.
Proof. unfold MonthFromTime. repeat case_match; lia. Qed.

Lemma MakeDay_month (y m dt : Z) :
  0 <= m <= 11 → MakeDay y m dt = DayFromYear y + monthStart y m + dt - 1.
Proof.
  intros Hm. unfold MakeDay.
  rewrite Z.div_small, Z.mod_small by lia. by rewrite Z.add_0_r.
Qed.

Ltac pick_case :=
  solve [ repeat first [ left; solve [repeat split; lia] | right ];
          repeat split; lia ].

(** Month and day of month, by the position of the day in its year. *)
Lemma month_date_cases (t : Z) :
  let d := DayWithinYear t in
  let l := InLeapYear t in
  (MonthFromTime t = 0 ∧ DateFromTime t = d + 1 ∧ d < 31) ∨
  (MonthFromTime t = 1 ∧ DateFromTime t = d - 30 ∧ 31 <= d < 59 + l) ∨
  (MonthFromTime t = 2 ∧ DateFromTime t = d - 58 - l ∧ 59 + l <= d < 90 + l) ∨
  (MonthFromTime t = 3 ∧ DateFromTime t = d - 89 - l ∧ 90 + l <= d < 120 + l) ∨
  (MonthFromTime t = 4 ∧ DateFromTime t = d - 119 - l ∧ 120 + l <= d < 151 + l) ∨
  (MonthFromTime t = 5 ∧ DateFromTime t = d - 150 - l ∧ 151 + l <= d < 181 + l) ∨
  (MonthFromTime t = 6 ∧ DateFromTime t = d - 180 - l ∧ 181 + l <= d < 212 + l) ∨
  (MonthFromTime t = 7 ∧ DateFromTime t = d - 211 - l ∧ 212 + l <= d < 243 + l) ∨
  (MonthFromTime t = 8 ∧ DateFromTime t = d - 242 - l ∧ 243 + l <= d < 273 + l) ∨
  (MonthFromTime t = 9 ∧ DateFromTime t = d - 272 - l ∧ 273 + l <= d < 304 + l) ∨
  (MonthFromTime t = 10 ∧ DateFromTime t = d - 303 - l ∧ 304 + l <= d < 334 + l) ∨
  (MonthFromTime t = 11 ∧ DateFromTime t = d - 333 - l ∧ 334 + l <= d).
Proof.
  intros d l. unfold DateFromTime, MonthFromTime. fold d l.
  repeat match goal with
         | |- context [?a <? ?b] => destruct (Z.ltb_spec a b)
         end; cbn iota; pick_case.
Qed.

(** The day that [setUTCFullYear] composes lies in the target year. *)
Lemma MakeDay_in_year (t y : Z) :
  DayFromYear y <= MakeDay y (MonthFromTime t) (DateFromTime t)
    < DayFromYear (y + 1).
Proof.
  rewrite MakeDay_month by apply MonthFromTime_bounds.
  rewrite DayFromYear_succ.
  pose proof (DayWithinYear_bounds t) as Hd.
  pose proof (month_date_cases t) as Hc. cbv zeta in Hc.
  assert (0 <= InLeapYear t <= 1) by (unfold InLeapYear; case_match; lia).
  unfold DaysInYear, monthStart.
  destruct Hc as [(-> & -> & ?)|[(-> & -> & ?)|[(-> & -> & ?)|[(-> & -> & ?)|
    [(-> & -> & ?)|[(-> & -> & ?)|[(-> & -> & ?)|[(-> & -> & ?)|[(-> & -> & ?)|
    [(-> & -> & ?)|[(-> & -> & ?)|(-> & -> & ?)]]]]]]]]]]];
    destruct (InLeapYearOf y); lia.
Qed.

Lemma Day_MakeDate (d tm : Z) :
  0 <= tm < msPerDay →
  Day (MakeDate d tm) = d ∧ TimeWithinDay (MakeDate d tm) = tm.
Proof. unfold Day, TimeWithinDay, MakeDate, msPerDay. intros Htm. zlia. Qed.

Lemma TimeWithinDay_bounds (t : Z) : 0 <= TimeWithinDay t < msPerDay.
Proof. unfold TimeWithinDay, msPerDay. zlia. Qed.

(** The time value that [setUTCFullYear(y)] composes lies in year [y]. *)
Lemma YearFromTime_shifted (t y : Z) :
  YearFromTime
    (MakeDate (MakeDay y (MonthFromTime t) (DateFromTime t)) (TimeWithinDay t))
  = y.
Proof.
  apply YearFromTime_unique.
  destruct (Day_MakeDate (MakeDay y (MonthFromTime t) (DateFromTime t))
              (TimeWithinDay t) (TimeWithinDay_bounds t)) as [-> _].
  apply MakeDay_in_year.
Qed.

(** A midnight [k] days into the year [y]: its year and its day within the
    year. *)
Lemma midnight_in_year (y k : Z) :
  0 <= k < DaysInYear y →
  let t := MakeDate (DayFromYear y + k) 0 in
  YearFromTime t = y ∧ DayWithinYear t = k ∧ TimeWithinDay t = 0.
Proof.
  intros Hk t.
  destruct (Day_MakeDate (DayFromYear y + k) 0) as [HD HT];
    [unfold msPerDay; lia|].
  assert (YearFromTime t = y) as HY.
  { apply YearFromTime_unique. fold t in HD. rewrite HD, DayFromYear_succ. lia. }
  repeat split; [done| |done].
  unfold DayWithinYear. fold t in HD. rewrite HD, HY. lia.
Qed.

(** [MakeDay] finds the first day of the month as ECMA-262 asks: a day
    whose year is [y], whose month is [mn] and whose day of month is 1. *)
Lemma MakeDay_first_of_month (y mn : Z) :
  0 <= mn <= 11 →
  let t := MakeDate (MakeDay y mn 1) 0 in
  YearFromTime t = y ∧ MonthFromTime t = mn ∧ DateFromTime t = 1.
Proof.
  intros Hmn t. unfold t. rewrite MakeDay_month by done.
  set (l := if InLeapYearOf y then 1 else 0).
  assert (0 <= l <= 1) as Hl by (unfold l; case_match; lia).
  assert (DaysInYear y = 365 + l) as Hdays
    by (unfold DaysInYear, l; case_match; lia).
  assert (0 <= monthStart y mn < DaysInYear y ∧
          (mn = 0 ∧ monthStart y mn = 0 ∨ mn = 1 ∧ monthStart y mn = 31 ∨
           mn = 2 ∧ monthStart y mn = 59 + l ∨ mn = 3 ∧ monthStart y mn = 90 + l ∨
           mn = 4 ∧ monthStart y mn = 120 + l ∨ mn = 5 ∧ monthStart y mn = 151 + l ∨
           mn = 6 ∧ monthStart y mn = 181 + l ∨ mn = 7 ∧ monthStart y mn = 212 + l ∨
           mn = 8 ∧ monthStart y mn = 243 + l ∨ mn = 9 ∧ monthStart y mn = 273 + l ∨
           mn = 10 ∧ monthStart y mn = 304 + l ∨
           mn = 11 ∧ monthStart y mn = 334 + l)) as [Hk Hcases].
  { unfold monthStart. fold l.
    assert (mn = 0 ∨ mn = 1 ∨ mn = 2 ∨ mn = 3 ∨ mn = 4 ∨ mn = 5 ∨ mn = 6 ∨
            mn = 7 ∨ mn = 8 ∨ mn = 9 ∨ mn = 10 ∨ mn = 11) as Hm by lia.
    destruct Hm as [->|[->|[->|[->|[->|[->|[->|[->|[->|[->|[->| ->]]]]]]]]]]];
      lia. }
  replace (DayFromYear y + monthStart y mn + 1 - 1)
    with (DayFromYear y + monthStart y mn) by lia.
  destruct (midnight_in_year y (monthStart y mn) Hk) as (HY & HD & _).
  pose proof (month_date_cases (MakeDate (DayFromYear y + monthStart y mn) 0))
    as Hc.
  cbv zeta in Hc. rewrite HD in Hc. unfold InLeapYear in Hc. rewrite HY in Hc.
  fold l in Hc. split; [done|]. lia.
Qed.

(** Years whose every day is an instant that a [Date] can hold: the range
    of [Date] starts in year -271821 and ends in year 275760. *)
Lemma representable_days (y k : Z) :
  -271821 < y < 275760 → 0 <= k <= 365 →
  - maxTime <= MakeDate (DayFromYear y + k) 0 <= maxTime.
Proof.
  intros Hy Hk. unfold MakeDate, DayFromYear, msPerDay, maxTime. zlia.
Qed.

End CalendarFacts.

(** ** Running the primitives *)

Section Run.
Context `{Collaborators}.

Lemma TimeClip_Fin n z :
  TimeClip n = Fin z → n = Fin z ∧ - ES.maxTime <= z <= ES.maxTime.
Proof.
  destruct n as [|x]; simpl; [done|].
  case_match; [done|]. intros [= ->]. split; [done|lia].
Qed.

Lemma TimeClip_in_range z :
  - ES.maxTime <= z <= ES.maxTime → TimeClip (Fin z) = Fin z.
Proof. intros Hz. simpl. case_match; [lia|done]. Qed.

Lemma timeValue_app_l h ext d :
  (d < length h)%nat → timeValue (h ++ ext) d = timeValue h d.
Proof. intros Hd. unfold timeValue. by rewrite lookup_app_l. Qed.

Lemma timeValue_fresh h v ext : timeValue (h ++ v :: ext) (length h) = v.
Proof. unfold timeValue. by rewrite list_lookup_middle. Qed.

Lemma timeValue_prefix h h' d z :
  h `prefix_of` h' → timeValue h d = Fin z → timeValue h' d = Fin z.
Proof.
  intros [ext ->] Hd. rewrite timeValue_app_l; [done|].
  unfold timeValue in Hd. destruct (h !! d) eqn:E; [|done].
  by eapply lookup_lt_Some.
Qed.

(** A bound that coerces to an instant coerces to the same instant in
    every later heap. *)
Lemma Date_value_prefix h h' v z :
  h `prefix_of` h' → Date_value h v = Fin z → Date_value h' v = Fin z.
Proof.
  intros Hp. unfold Date_value. destruct v; try done.
  intros Hv. apply TimeClip_Fin in Hv as [Hv Hz].
  rewrite (timeValue_prefix _ _ _ _ Hp Hv). by apply TimeClip_in_range.
Qed.

Lemma toDate_run date name s :
  toDate date name s =
    let v := Date_value (heap s) date in
    let s' := {| heap := heap s ++ [v]; gen := gen s |} in
    if isNaN v then (Throw (InvalidDateError name date), s')
    else (Ok (length (heap s)), s').
Proof.
  unfold toDate, mbind, M_bind, new_Date, getTime. simpl.
  rewrite timeValue_fresh. by destruct (Date_value _ _).
Qed.

Lemma bind_run {A B} (m : M A) (k : A → M B) s :
  (m ≫= k) s =
    match m s with
    | (Ok a, s') => k a s'
    | (Throw e, s') => (Throw e, s')
    end.
Proof. done. Qed.

(** [between], case by case. *)
Lemma between_cases o s :
  between (Some o) s =
    if negb (truthy (from o)) || negb (truthy (to o))
    then (Throw MissingBoundsError, s)
    else
      match Date_value (heap s) (from o) with
      | NaN => (Throw (InvalidDateError "from" (from o)),
                {| heap := heap s ++ [NaN]; gen := gen s |})
      | Fin fromMs =>
          match Date_value (heap s ++ [Fin fromMs]) (to o) with
          | NaN => (Throw (InvalidDateError "to" (to o)),
                    {| heap := heap s ++ [Fin fromMs; NaN]; gen := gen s |})
          | Fin toMs =>
              if toMs <? fromMs
              then (Throw (InvalidRangeError FromAfterTo),
                    {| heap := heap s ++ [Fin fromMs; Fin toMs]; gen := gen s |})
              else
                let '(r, g) := number_int (Fin fromMs) (Fin toMs) (gen s) in
                (Ok (length (heap s) + 2)%nat,
                 {| heap := heap s ++ [Fin fromMs; Fin toMs; TimeClip r];
                    gen := g |})
          end
      end.
Proof.
  unfold between.
  destruct (negb (truthy (from o)) || negb (truthy (to o))); [done|].
  rewrite bind_run, toDate_run. cbv zeta.
  destruct (Date_value (heap s) (from o)) as [|fromMs]; [done|]. cbn [isNaN].
  rewrite bind_run. unfold getTime at 1. cbn [heap gen].
  rewrite timeValue_fresh.
  rewrite bind_run, toDate_run. cbv zeta. cbn [heap gen].
  destruct (Date_value (heap s ++ [Fin fromMs]) (to o)) as [|toMs];
    cbn [isNaN]; rewrite <- app_assoc; [done|].
  rewrite bind_run. unfold getTime at 1. cbn [heap gen app].
  replace (timeValue _ _) with (Fin toMs).
  2:{ unfold timeValue. rewrite length_app, lookup_app_r by (simpl; lia).
      by replace (length (heap s) + length [Fin fromMs] - length (heap s))%nat
        with 1%nat by (simpl; lia). }
  unfold num_gt. cbn [num_lt].
  destruct (toMs <? fromMs); [done|].
  rewrite bind_run. unfold faker_number_int, new_Date. cbn [heap gen].
  destruct (number_int _ _ _) as [r g]. cbn [heap gen].
  rewrite <- !app_assoc. cbn [app]. rewrite !length_app. simpl. done.
Qed.

Lemma between_run o s fromMs toMs :
  truthy (from o) = true → truthy (to o) = true →
  Date_value (heap s) (from o) = Fin fromMs →
  Date_value (heap s) (to o) = Fin toMs →
  between (Some o) s =
    if toMs <? fromMs
    then (Throw (InvalidRangeError FromAfterTo),
          {| heap := heap s ++ [Fin fromMs; Fin toMs]; gen := gen s |})
    else
      let '(r, g) := number_int (Fin fromMs) (Fin toMs) (gen s) in
      (Ok (length (heap s) + 2)%nat,
       {| heap := heap s ++ [Fin fromMs; Fin toMs; TimeClip r]; gen := g |}).
Proof.
  intros Tf Tt Hf Ht. rewrite between_cases, Tf, Tt, Hf. cbn [negb orb].
  by rewrite (Date_value_prefix (heap s) _ _ toMs);
    [|by apply prefix_app_r|done].
Qed.

End Run.

(** ** The sample collaborators keep their promises *)

Lemma Sample_int_in_range : @int_in_range Sample.collaborators.
Proof.
  intros a b g Hab. simpl. unfold Sample.lcg_int.
  destruct (a <=? b) eqn:E; [|lia]. simpl.
  eexists; split; [done|]. zlia.
Qed.

Lemma Sample_element_of_list : @element_of_list Sample.collaborators.
Proof.
  intros l g Hl. simpl. unfold Sample.lcg_element. simpl.
  apply list_elem_of_In, nth_In.
  destruct l as [|x l]; [done|]. simpl length.
  assert (0 <= g mod Z.of_nat (S (length l)) < Z.of_nat (S (length l)))
    by (apply Z.mod_pos_bound; lia).
  lia.
Qed.

(** ** [between] *)

Section Between.
Context `{Collaborators}.
Hypothesis random : int_in_range.

Lemma between_draw o s fromMs toMs :
  truthy (from o) = true → truthy (to o) = true →
  Date_value (heap s) (from o) = Fin fromMs →
  Date_value (heap s) (to o) = Fin toMs →
  fromMs <= toMs →
  ∃ r g, between (Some o) s =
           (Ok (length (heap s) + 2)%nat,
            {| heap := heap s ++ [Fin fromMs; Fin toMs; Fin r]; gen := g |}) ∧
         number_int (Fin fromMs) (Fin toMs) (gen s) = (Fin r, g) ∧
         fromMs <= r <= toMs.
Proof.
  intros Tf Tt Hf Ht Hle.
  rewrite (between_run o s fromMs toMs Tf Tt Hf Ht).
  apply TimeClip_Fin in Hf as [_ Hf]. apply TimeClip_Fin in Ht as [_ Ht].
  destruct (toMs <? fromMs) eqn:E; [lia|].
  destruct (random fromMs toMs (gen s)) as (r & Hr & Hrange); [lia|].
  destruct (number_int _ _ _) as [r' g]. simpl in Hr. subst r'.
  exists r, g. rewrite TimeClip_in_range by lia. done.
Qed.

Lemma instant_fresh (h : list number) a b v g :
  timeValue (heap {| heap := h ++ [a; b; v]; gen := g |}) (length h + 2)%nat = v.
Proof.
  cbn [heap]. unfold timeValue. rewrite lookup_app_r by lia.
  by replace (length h + 2 - length h)%nat with 2%nat by lia.
Qed.

(** C1.  When both bounds pass the presence check and coerce to the
    instants [fromMs] and [toMs], [between] throws the error of an invalid
    range exactly when [fromMs > toMs]; otherwise it returns a date whose
    instant is the integer drawn by the random source from
    [fromMs .. toMs], which lies between the two bounds. *)
Theorem between_invalid_range_iff_else_in_range o s fromMs toMs :
  truthy (from o) = true → truthy (to o) = true →
  Date_value (heap s) (from o) = Fin fromMs →
  Date_value (heap s) (to o) = Fin toMs →
  (instant (between (Some o)) s = Throw (InvalidRangeError FromAfterTo)
     ↔ fromMs > toMs) ∧
  (fromMs <= toMs →
     ∃ r, instant (between (Some o)) s = Ok (Fin r) ∧
          (number_int (Fin fromMs) (Fin toMs) (gen s)).1 = Fin r ∧
          fromMs <= r <= toMs).
Proof.
  intros Tf Tt Hf Ht. unfold instant.
  destruct (Z_le_gt_dec fromMs toMs) as [Hle|Hgt].
  - destruct (between_draw o s _ _ Tf Tt Hf Ht Hle) as (r & g & -> & Hr & Hin).
    rewrite instant_fresh.
    split; [split; [done|lia]|]. intros _. exists r. by rewrite Hr.
  - rewrite (between_run o s fromMs toMs Tf Tt Hf Ht).
    destruct (toMs <? fromMs) eqn:E; [|lia]. split; [done|lia].
Qed.

(** ** The single-window policies *)

Lemma truthy_nonzero z : z ≠ 0 → truthy (VNumber (Fin z)) = true.
Proof. intros Hz. simpl. by destruct (Z.eqb_spec z 0). Qed.

Lemma between_window lo hi s :
  usable lo hi → lo <= hi →
  ∃ r, instant (between (window (Fin lo) (Fin hi))) s = Ok (Fin r) ∧
       lo <= r <= hi.
Proof.
  intros (Hlo & Hhi & Hmin & Hmax) Hle. unfold window, instant.
  destruct (between_draw {| from := VNumber (Fin lo); to := VNumber (Fin hi);
                            count := None |} s lo hi)
    as (r & g & -> & _ & Hin); [by apply truthy_nonzero..| | |done|].
  - apply TimeClip_in_range. lia.
  - apply TimeClip_in_range. lia.
  - rewrite instant_fresh. by exists r.
Qed.


Lemma bind_assoc_run {A B C} (m : M A) (k : A → M B) (k' : B → M C) s :
  ((m ≫= k) ≫= k') s = (m ≫= λ a, k a ≫= k') s.
Proof. rewrite !bind_run. by destruct (m s) as [[a|e] s']. Qed.

Lemma past_reference years refDate s :
  0 < years →
  past (Some years) refDate s
    = (reference refDate ≫= λ time, between (past_window years time)) s.
Proof.
  intros Hy. unfold past, reference. simpl.
  destruct (years <=? 0) eqn:E; [lia|].
  rewrite bind_assoc_run, !bind_run.
  destruct (refDate_or_default refDate s) as [[r|e] s1]; [|done].
  by rewrite bind_assoc_run.
Qed.

Lemma future_reference years refDate s :
  0 < years →
  future (Some years) refDate s
    = (reference refDate ≫= λ time, between (future_window years time)) s.
Proof.
  intros Hy. unfold future, reference. simpl.
  destruct (years <=? 0) eqn:E; [lia|].
  rewrite bind_assoc_run, !bind_run.
  destruct (refDate_or_default refDate s) as [[r|e] s1]; [|done].
  by rewrite bind_assoc_run.
Qed.

Lemma recent_reference days refDate s :
  0 < days →
  recent (Some days) refDate s
    = (reference refDate ≫= λ time, between (recent_window days time)) s.
Proof.
  intros Hy. unfold recent, reference. simpl.
  destruct (days <=? 0) eqn:E; [lia|].
  rewrite bind_assoc_run, !bind_run.
  destruct (refDate_or_default refDate s) as [[r|e] s1]; [|done].
  by rewrite bind_assoc_run.
Qed.

Lemma soon_reference days refDate s :
  0 < days →
  soon (Some days) refDate s
    = (reference refDate ≫= λ time, between (soon_window days time)) s.
Proof.
  intros Hy. unfold soon, reference. simpl.
  destruct (days <=? 0) eqn:E; [lia|].
  rewrite bind_assoc_run, !bind_run.
  destruct (refDate_or_default refDate s) as [[r|e] s1]; [|done].
  by rewrite bind_assoc_run.
Qed.



(** ** [betweens] *)





End Between.

(** C3.  An omitted or [undefined] bound, [null] and the number [0] are
    falsy; and as soon as [from] or [to] is falsy, or the options object
    itself is missing, [between] and [betweens] throw the missing-bounds
    error and leave the state as it was: no date has been built and the
    random source has not been used. *)
Theorem missing_bounds_rejected `{Collaborators} o s :
  (∀ v, absent v → truthy v = false) ∧
  (truthy (from o) = false ∨ truthy (to o) = false →
   between (Some o) s = (Throw MissingBoundsError, s) ∧
   betweens (Some o) s = (Throw MissingBoundsError, s)) ∧
  between None s = (Throw MissingBoundsError, s) ∧
  betweens None s = (Throw MissingBoundsError, s).
Proof.
  split; [by intros v [->|[->| ->]]|].
  split; [|done].
  intros Hfalsy. unfold between, betweens.
  assert (negb (truthy (from o)) || negb (truthy (to o)) = true) as ->.
  { destruct Hfalsy as [-> | ->]; simpl; by rewrite ?orb_true_r. }
  done.
Qed.

(** ** [month] and [weekday] *)

Section Vocabulary.
Context `{Collaborators}.
Hypothesis choice : element_of_list.

(** C8.  [month] and [weekday] read the variant that section 4.6
    describes: [abbr] or [wide] according to [abbreviated], replaced by its
    [_context] counterpart only when [context] is true and the table has a
    non-null entry for the counterpart.  In particular, when the month
    table has no [abbr_context] but a non-empty [abbr] list,
    [month({ abbreviated: true, context: true })] returns an element of
    that list. *)
Theorem variant_resolution (abbreviated context : option bool) :
  let a := default false abbreviated in
  let c := default false context in
  month abbreviated context
    = (values ← assertLocaleData
                  (definitions_date_month
                     !! Spec.variant definitions_date_month a c)
                  "date.month" (Spec.variant definitions_date_month a c);
       faker_arrayElement values) ∧
  weekday abbreviated context
    = (values ← assertLocaleData
                  (definitions_date_weekday
                     !! Spec.variant definitions_date_weekday a c)
                  "date.weekday" (Spec.variant definitions_date_weekday a c);
       faker_arrayElement values) ∧
  (∀ s abbr,
     not_nullish (definitions_date_month !! "abbr_context") = false →
     definitions_date_month !! "abbr" = Some (EList abbr) →
     abbr ≠ [] →
     ∃ x, result (month (Some true) (Some true)) s = Ok x ∧ x ∈ abbr).
Proof.
  intros a c. repeat split.
  - unfold month, Spec.variant. fold a c. by destruct a, c.
  - unfold weekday, Spec.variant. fold a c. by destruct a, c.
  - intros s abbr Hctx Habbr Hne. unfold result, month. simpl.
    rewrite Hctx. simpl. rewrite Habbr.
    destruct abbr as [|v vs]; [done|]. simpl.
    rewrite bind_run. unfold mret, M_ret, faker_arrayElement.
    pose proof (choice (v :: vs) (gen s) Hne) as Hin.
    destruct (arrayElement (v :: vs) (gen s)) as [x g]. by exists x.
Qed.

End Vocabulary.

(** ** No date of the caller is modified *)

Section Frame.
Context `{Collaborators}.

Lemma framed_ret {A} (a : A) : framed (mret a).
Proof. intros s. done. Qed.

Lemma framed_throw {A} e : framed (throw (A := A) e).
Proof. intros s. done. Qed.

Lemma framed_bind {A B} (m : M A) (k : A → M B) :
  framed m → (∀ a, framed (k a)) → framed (m ≫= k).
Proof.
  intros Hm Hk s. rewrite bind_run. specialize (Hm s).
  destruct (m s) as [[a|e] s1]; [|done].
  etrans; [exact Hm|]. apply Hk.
Qed.

Lemma framed_new_Date v : framed (new_Date v).
Proof. intros s. by apply prefix_app_r. Qed.

Lemma framed_getTime d : framed (getTime d).
Proof. intros s. done. Qed.

Lemma framed_getUTCFullYear d : framed (getUTCFullYear d).
Proof. intros s. done. Qed.

Lemma framed_number_int lo hi : framed (faker_number_int lo hi).
Proof. intros s. unfold faker_number_int. by destruct (number_int _ _ _). Qed.

Lemma framed_arrayElement l : framed (faker_arrayElement l).
Proof. intros s. unfold faker_arrayElement. by destruct (arrayElement _ _). Qed.

Lemma framed_defaultRefDate : framed faker_defaultRefDate.
Proof. intros s. by apply prefix_app_r. Qed.

Lemma framed_sort_by_time ds : framed (sort_by_time ds).
Proof. intros s. done. Qed.

Lemma framed_assertLocaleData x path type : framed (assertLocaleData x path type).
Proof. intros s. by destruct x as [[|[|]]|]. Qed.

(** [new Date(v).setUTCFullYear(y)]: the date that is updated in place is
    the copy just built, not a date of the initial state. *)
Lemma framed_copy_then_set {B} v y (k : number → M B) :
  (∀ x, framed (k x)) →
  framed (d ← new_Date v; x ← setUTCFullYear d y; k x).
Proof.
  intros Hk s. rewrite bind_run. unfold new_Date at 1. cbn beta iota.
  rewrite bind_run. unfold setUTCFullYear at 1. cbn beta iota. cbn [heap gen].
  etrans; [|apply Hk]. cbn [heap].
  rewrite insert_app_r_alt by done. rewrite Nat.sub_diag. simpl.
  by apply prefix_app_r.
Qed.

Create HintDb framed.
Hint Resolve framed_ret framed_throw framed_new_Date framed_getTime
  framed_getUTCFullYear framed_number_int framed_arrayElement
  framed_defaultRefDate framed_sort_by_time framed_assertLocaleData : framed.

Ltac framed_step :=
  match goal with
  | |- framed (_ ← new_Date _; _ ← setUTCFullYear _ _; _) =>
      apply framed_copy_then_set; intros
  | |- framed (_ ≫= _) => apply framed_bind; [|intros]
  | |- framed (if ?b then _ else _) => destruct b
  | |- framed (match ?x with _ => _ end) => destruct x
  | |- framed (let '(_, _) := ?x in _) => destruct x
  | |- framed _ => solve [auto with framed]
  end.

Lemma framed_refDate_or_default v : framed (refDate_or_default v).
Proof. unfold refDate_or_default. repeat framed_step. Qed.

Lemma framed_toDate date name : framed (toDate date name).
Proof. unfold toDate. repeat framed_step. Qed.

Hint Resolve framed_refDate_or_default framed_toDate : framed.

Lemma framed_between options : framed (between options).
Proof. unfold between. repeat framed_step. Qed.

Hint Resolve framed_between : framed.

Lemma framed_times {A} n (m : M A) : framed m → framed (times n m).
Proof.
  intros Hm. induction n as [|n IH]; simpl; [auto with framed|].
  repeat framed_step; done.
Qed.

Lemma framed_betweens options : framed (betweens options).
Proof.
  unfold betweens, faker_multiple, rangeToNumber.
  repeat framed_step; apply framed_times; auto with framed.
Qed.

Lemma framed_birthdate options : framed (birthdate options).
Proof.
  unfold birthdate, birthdate_bounds. repeat framed_step.
Qed.

Lemma framed_anytime refDate : framed (anytime refDate).
Proof. unfold anytime. repeat framed_step. Qed.

Lemma framed_past years refDate : framed (past years refDate).
Proof. unfold past. repeat framed_step. Qed.

Lemma framed_future years refDate : framed (future years refDate).
Proof. unfold future. repeat framed_step. Qed.

Lemma framed_recent days refDate : framed (recent days refDate).
Proof. unfold recent. repeat framed_step. Qed.

Lemma framed_soon days refDate : framed (soon days refDate).
Proof. unfold soon. repeat framed_step. Qed.

Lemma framed_month abbreviated context : framed (month abbreviated context).
Proof. unfold month. repeat framed_step. Qed.

Lemma framed_weekday abbreviated context : framed (weekday abbreviated context).
Proof. unfold weekday. repeat framed_step. Qed.

Lemma framed_call (c : call) s : heap s `prefix_of` heap (after c s).
Proof.
  destruct c; unfold after.
  - apply framed_toDate.
  - apply framed_anytime.
  - apply framed_past.
  - apply framed_future.
  - apply framed_between.
  - apply framed_betweens.
  - apply framed_recent.
  - apply framed_soon.
  - apply framed_birthdate.
  - apply framed_month.
  - apply framed_weekday.
Qed.

(** C10.  No call modifies a date object of the caller: a date [d] that
    exists before a call (a [refDate], [from] or [to] argument among them)
    holds the same time value after it.  In particular the date that
    [toDate] returns is a new object, never [d] itself. *)
Theorem caller_dates_unchanged (c : call) (s : state) (d : loc) :
  (d < length (heap s))%nat →
  timeValue (heap (after c s)) d = timeValue (heap s) d ∧
  (∀ date name d', (toDate date name s).1 = Ok d' → d' ≠ d).
Proof.
  intros Hd. split.
  - destruct (framed_call c s) as [ext ->]. by apply timeValue_app_l.
  - intros date name d'. rewrite toDate_run. simpl.
    destruct (isNaN _); [done|]. intros [= <-]. lia.
Qed.

End Frame.

(** ** [birthdate] *)

Section Birthdate.
Context `{Collaborators}.
Hypothesis random : int_in_range.

Lemma reference_inv refDate s time s1 :
  reference refDate s = (Ok (Fin time), s1) →
  ∃ d, (refDate_or_default refDate ≫= λ r, toDate r "refDate") s = (Ok d, s1) ∧
       timeValue (heap s1) d = Fin time ∧
       (d < length (heap s1))%nat ∧
       gen s1 = gen s ∧
       - ES.maxTime <= time <= ES.maxTime.
Proof.
  unfold reference. rewrite !bind_run.
  assert (gen (refDate_or_default refDate s).2 = gen s) as Hgen
    by (by destruct refDate).
  destruct (refDate_or_default refDate s) as [[r|e] s0]; [|done].
  rewrite bind_run, toDate_run. simpl.
  destruct (Date_value (heap s0) r) as [|z] eqn:E; simpl; [done|].
  unfold getTime. cbn [heap]. rewrite timeValue_fresh.
  intros [= -> <-]. exists (length (heap s0)). cbn [heap gen].
  rewrite timeValue_fresh, length_app. simpl.
  apply TimeClip_Fin in E as [_ E].
  repeat split; [lia|done|lia|lia].
Qed.

Lemma refDate_or_default_ok v s :
  ∃ r s0, refDate_or_default v s = (Ok r, s0).
Proof. destruct v; by eexists _, _. Qed.

Lemma setUTCFullYear_copy v y h g :
  (new_Date v ≫= λ d, setUTCFullYear d y) {| heap := h; gen := g |}
  = (Ok (withUTCFullYear (Date_value h v) y),
     {| heap := h ++ [withUTCFullYear (Date_value h v) y]; gen := g |}).
Proof.
  rewrite bind_run. unfold new_Date, setUTCFullYear. cbn [heap gen].
  rewrite timeValue_fresh.
  rewrite insert_app_r_alt by done. by rewrite Nat.sub_diag.
Qed.

Lemma birthdate_bounds_run options d time s :
  timeValue (heap s) d = Fin time →
  - ES.maxTime <= time <= ES.maxTime →
  birthdate_bounds options (default year (mode options)) d
    (Fin (ES.YearFromTime time)) s
  = (Ok (mode_bounds options time),
     {| heap := heap s ++ [(mode_bounds options time).1;
                           (mode_bounds options time).2];
        gen := gen s |}).
Proof.
  intros Hd Hrange. unfold mode_bounds, birthdate_bounds. destruct s as [h g].
  cbn [heap gen] in *.
  assert (∀ ext, Date_value (h ++ ext) (VDate d) = Fin time) as Hcopy.
  { intros ext. unfold Date_value.
    rewrite (timeValue_prefix h _ d time); [|by apply prefix_app_r|done].
    by apply TimeClip_in_range. }
  destruct (default year (mode options)).
  - rewrite <- bind_assoc_run, bind_run, setUTCFullYear_copy.
    rewrite <- bind_assoc_run, bind_run, setUTCFullYear_copy.
    specialize (Hcopy []) as Hc0. rewrite app_nil_r in Hc0.
    rewrite Hc0, Hcopy. unfold age_bounds. cbn [fst snd num_sub mret M_ret].
    by rewrite <- app_assoc.
  - rewrite <- bind_assoc_run, bind_run, setUTCFullYear_copy.
    rewrite <- bind_assoc_run, bind_run, setUTCFullYear_copy.
    assert (∀ h' n, Date_value h' (VNumber (Date_UTC 0 n 2)) = Date_UTC 0 n 2
                    ∧ Date_value h' (VNumber (Date_UTC 0 n 30)) = Date_UTC 0 n 30)
      as Hutc.
    { intros h' n. unfold Date_value, Date_UTC.
      split; by destruct (TimeClip (Fin _)) as [|z] eqn:E;
        [|apply TimeClip_Fin in E as [_ E]; apply TimeClip_in_range]. }
    rewrite (proj1 (Hutc _ 0)), (proj2 (Hutc _ 11)).
    unfold year_bounds. cbn [fst snd mret M_ret].
    rewrite <- app_assoc.
    by destruct (min options), (max options).
Qed.

Lemma birthdate_run options s time s1 :
  reference (refDate options) s = (Ok (Fin time), s1) →
  birthdate options s =
    let '(lo, hi) := mode_bounds options time in
    if num_lt hi lo
    then (Throw (InvalidRangeError (MaxBelowMin (max options) (min options))),
          {| heap := heap s1 ++ [lo; hi]; gen := gen s1 |})
    else
      let '(r, g) := number_int lo hi (gen s1) in
      (Ok (length (heap s1) + 2)%nat,
       {| heap := heap s1 ++ [lo; hi; TimeClip r]; gen := g |}).
Proof.
  intros Href.
  destruct (reference_inv _ _ _ _ Href) as (d & Hd & Htime & _ & _ & Hrange).
  unfold birthdate. rewrite <- bind_assoc_run, bind_run, Hd.
  rewrite bind_run. unfold getUTCFullYear at 1. rewrite Htime.
  cbn [UTCFullYear]. rewrite bind_run, birthdate_bounds_run by done.
  destruct (mode_bounds options time) as [lo hi]. cbn [fst snd].
  destruct (num_lt hi lo); [done|].
  rewrite bind_run. unfold faker_number_int, new_Date. cbn [heap gen].
  destruct (number_int lo hi (gen s1)) as [r g]. cbn [heap gen].
  rewrite <- app_assoc, length_app. simpl. done.
Qed.

Lemma withUTCFullYear_year t y v :
  withUTCFullYear (Fin t) (Fin y) = Fin v → ES.YearFromTime v = y.
Proof.
  unfold withUTCFullYear. intros Hv. apply TimeClip_Fin in Hv as [[= <-] _].
  apply YearFromTime_shifted.
Qed.

Lemma withUTCFullYear_lt t y y' v v' :
  withUTCFullYear (Fin t) (Fin y) = Fin v →
  withUTCFullYear (Fin t) (Fin y') = Fin v' →
  y < y' → v < v'.
Proof.
  intros Hv Hv' Hy.
  apply withUTCFullYear_year in Hv, Hv'.
  destruct (Z_lt_le_dec v v') as [|Hle]; [done|].
  apply YearFromTime_mono in Hle. lia.
Qed.

Lemma withUTCFullYear_range t y v :
  withUTCFullYear t y = Fin v → - ES.maxTime <= v <= ES.maxTime.
Proof.
  unfold withUTCFullYear. destruct y; [done|]. intros Hv.
  by apply TimeClip_Fin in Hv as [_ ?].
Qed.

Lemma InLeapYear_of_year t y :
  ES.YearFromTime t = y →
  ES.InLeapYear t = if ES.InLeapYearOf y then 1 else 0.
Proof. intros <-. done. Qed.

(** In mode ['year'] the lower bound is the midnight that starts January 2
    of the year, the upper bound the one that starts December 30. *)
Lemma year_lower_bound y :
  representable_year y →
  ∃ lo, withUTCFullYear (Date_UTC 0 0 2) (Fin y) = Fin lo ∧
        ES.YearFromTime lo = y ∧ ES.MonthFromTime lo = 0 ∧
        ES.DateFromTime lo = 2 ∧ ES.TimeWithinDay lo = 0.
Proof.
  intros Hy. exists (ES.MakeDate (ES.DayFromYear y + 1) 0).
  assert (Date_UTC 0 0 2 = Fin (-2208902400000)) as -> by (by vm_compute).
  unfold withUTCFullYear.
  assert (ES.MonthFromTime (-2208902400000) = 0) as -> by (by vm_compute).
  assert (ES.DateFromTime (-2208902400000) = 2) as -> by (by vm_compute).
  assert (ES.TimeWithinDay (-2208902400000) = 0) as -> by (by vm_compute).
  rewrite MakeDay_month by lia.
  replace (ES.DayFromYear y + ES.monthStart y 0 + 2 - 1)
    with (ES.DayFromYear y + 1) by (unfold ES.monthStart; lia).
  pose proof (DaysInYear_bounds y) as Hdays.
  destruct (midnight_in_year y 1) as (HY & HD & HT); [lia|].
  split; [apply TimeClip_in_range, representable_days; [done|lia]|].
  pose proof (month_date_cases (ES.MakeDate (ES.DayFromYear y + 1) 0)) as Hc.
  cbv zeta in Hc. rewrite HD in Hc.
  assert (0 <= ES.InLeapYear (ES.MakeDate (ES.DayFromYear y + 1) 0) <= 1)
    by (unfold ES.InLeapYear; case_match; lia).
  repeat split; [done| | |done]; lia.
Qed.

Lemma year_upper_bound y :
  representable_year y →
  ∃ hi, withUTCFullYear (Date_UTC 0 11 30) (Fin y) = Fin hi ∧
        ES.YearFromTime hi = y ∧ ES.MonthFromTime hi = 11 ∧
        ES.DateFromTime hi = 30 ∧ ES.TimeWithinDay hi = 0.
Proof.
  intros Hy.
  set (l := if ES.InLeapYearOf y then 1 else 0).
  assert (0 <= l <= 1) as Hl by (unfold l; case_match; lia).
  exists (ES.MakeDate (ES.DayFromYear y + (363 + l)) 0).
  assert (Date_UTC 0 11 30 = Fin (-2177625600000)) as -> by (by vm_compute).
  unfold withUTCFullYear.
  assert (ES.MonthFromTime (-2177625600000) = 11) as -> by (by vm_compute).
  assert (ES.DateFromTime (-2177625600000) = 30) as -> by (by vm_compute).
  assert (ES.TimeWithinDay (-2177625600000) = 0) as -> by (by vm_compute).
  rewrite MakeDay_month by lia.
  replace (ES.DayFromYear y + ES.monthStart y 11 + 30 - 1)
    with (ES.DayFromYear y + (363 + l)) by (unfold ES.monthStart; fold l; lia).
  assert (ES.DaysInYear y = 365 + l) as Hdays
    by (unfold ES.DaysInYear, l; case_match; lia).
  destruct (midnight_in_year y (363 + l)) as (HY & HD & HT); [lia|].
  split; [apply TimeClip_in_range, representable_days; [done|lia]|].
  pose proof (month_date_cases (ES.MakeDate (ES.DayFromYear y + (363 + l)) 0))
    as Hc.
  cbv zeta in Hc. rewrite HD, (InLeapYear_of_year _ y HY) in Hc. fold l in Hc.
  repeat split; [done| | |done]; lia.
Qed.

Opaque withUTCFullYear Date_UTC.

Lemma age_bounds_lt options time lo hi :
  default 18 (min options) <= default 80 (max options) →
  age_bounds options time = (Fin lo, Fin hi) → lo < hi.
Proof.
  intros Hages Heq.
  pose proof (f_equal fst Heq) as Hlo. pose proof (f_equal snd Heq) as Hhi.
  unfold age_bounds in Hlo, Hhi. cbn [fst snd] in Hlo, Hhi.
  eapply withUTCFullYear_lt; [exact Hlo|exact Hhi|lia].
Qed.

Lemma age_bounds_not_reversed options time :
  default 18 (min options) <= default 80 (max options) →
  num_lt (age_bounds options time).2 (age_bounds options time).1 = false.
Proof.
  intros Hages. destruct (age_bounds options time) as [[|lo] [|hi]] eqn:E;
    cbn [fst snd num_lt]; try reflexivity.
  pose proof (age_bounds_lt _ _ _ _ Hages E). lia.
Qed.

Lemma birthdate_draw options s time s1 lo hi :
  reference (refDate options) s = (Ok (Fin time), s1) →
  mode_bounds options time = (Fin lo, Fin hi) →
  - ES.maxTime <= lo → hi <= ES.maxTime → lo <= hi →
  ∃ r, instant (birthdate options) s = Ok (Fin r) ∧
       (number_int (Fin lo) (Fin hi) (gen s)).1 = Fin r ∧
       lo <= r <= hi.
Proof.
  intros Href Hb Hlo Hhi Hle. unfold instant.
  rewrite (birthdate_run _ _ _ _ Href), Hb.
  destruct (reference_inv _ _ _ _ Href) as (_ & _ & _ & _ & Hgen & _).
  rewrite Hgen. cbn [num_lt].
  destruct (hi <? lo) eqn:E; [lia|].
  destruct (random lo hi (gen s) Hle) as (r & Hr & Hin).
  destruct (number_int (Fin lo) (Fin hi) (gen s)) as [r' g].
  cbn [fst] in Hr. subst r'. rewrite TimeClip_in_range by lia.
  rewrite instant_fresh. by exists r.
Qed.

(** C4, amended.  In mode ['age'], with the reference instant [time] of
    year [refYear], let [lo] be [time] with its year set to
    [refYear - (max ?? 80) - 1] and [hi] be [time] with its year set to
    [refYear - (min ?? 18)], both instants with [lo <= hi].  Then
    [birthdate] returns the integer that the random source draws from
    [lo .. hi]; [lo] lies in the year [refYear - (max ?? 80) - 1] and [hi]
    in the year [refYear - (min ?? 18)]; and the difference between the
    reference year and the year of the result is at least [min ?? 18] and
    at most [(max ?? 80) + 1]. *)
Theorem age_mode_window options s time s1 lo hi :
  mode options = Some age →
  reference (refDate options) s = (Ok (Fin time), s1) →
  withUTCFullYear (Fin time)
    (Fin (ES.YearFromTime time - default 80 (max options) - 1)) = Fin lo →
  withUTCFullYear (Fin time)
    (Fin (ES.YearFromTime time - default 18 (min options))) = Fin hi →
  lo <= hi →
  ES.YearFromTime lo = ES.YearFromTime time - default 80 (max options) - 1 ∧
  ES.YearFromTime hi = ES.YearFromTime time - default 18 (min options) ∧
  ∃ r, instant (birthdate options) s = Ok (Fin r) ∧
       (number_int (Fin lo) (Fin hi) (gen s)).1 = Fin r ∧
       lo <= r <= hi ∧
       default 18 (min options) <= ES.YearFromTime time - ES.YearFromTime r
         <= default 80 (max options) + 1.
Proof.
  intros Hmode Href Hlo Hhi Hle.
  pose proof (withUTCFullYear_year _ _ _ Hlo) as Ylo.
  pose proof (withUTCFullYear_year _ _ _ Hhi) as Yhi.
  pose proof (withUTCFullYear_range _ _ _ Hlo) as Rlo.
  pose proof (withUTCFullYear_range _ _ _ Hhi) as Rhi.
  do 2 (split; [done|]).
  destruct (birthdate_draw options s time s1 lo hi) as (r & Hr & Hdraw & Hin);
    [done| |lia|lia|done|].
  { unfold mode_bounds. rewrite Hmode.
    change (default year (Some age)) with age. cbn iota.
    unfold age_bounds. cbv zeta. by rewrite Hlo, Hhi. }
  exists r. do 3 (split; [done|]).
  pose proof (YearFromTime_mono lo r (proj1 Hin)).
  pose proof (YearFromTime_mono r hi (proj2 Hin)). lia.
Qed.

(** C5, amended.  In mode ['year'] (the default), with the reference
    instant [time] and representable years [ymin = min ?? refYear - 80] and
    [ymax = max ?? refYear - 19] such that [ymin <= ymax], [birthdate]
    returns the integer that the random source draws from [lo .. hi], where
    [lo] is the midnight that starts January 2 of [ymin] and [hi] the
    midnight that starts December 30 of [ymax]; the year of the result lies
    in [ymin .. ymax]. *)
Theorem year_mode_window options s time s1 :
  default year (mode options) = year →
  reference (refDate options) s = (Ok (Fin time), s1) →
  let ymin := default (ES.YearFromTime time - 80) (min options) in
  let ymax := default (ES.YearFromTime time - 19) (max options) in
  representable_year ymin → representable_year ymax → ymin <= ymax →
  ∃ lo hi r,
    (ES.YearFromTime lo = ymin ∧ ES.MonthFromTime lo = 0 ∧
     ES.DateFromTime lo = 2 ∧ ES.TimeWithinDay lo = 0) ∧
    (ES.YearFromTime hi = ymax ∧ ES.MonthFromTime hi = 11 ∧
     ES.DateFromTime hi = 30 ∧ ES.TimeWithinDay hi = 0) ∧
    instant (birthdate options) s = Ok (Fin r) ∧
    (number_int (Fin lo) (Fin hi) (gen s)).1 = Fin r ∧
    lo <= r <= hi ∧
    ymin <= ES.YearFromTime r <= ymax.
Proof.
  intros Hmode Href ymin ymax Rmin Rmax Hle.
  destruct (year_lower_bound ymin Rmin) as (lo & Hlo & Ylo & Mlo & Dlo & Tlo).
  destruct (year_upper_bound ymax Rmax) as (hi & Hhi & Yhi & Mhi & Dhi & Thi).
  pose proof (withUTCFullYear_range _ _ _ Hlo) as Rlo.
  pose proof (withUTCFullYear_range _ _ _ Hhi) as Rhi.
  assert (lo <= hi) as Hlohi.
  { destruct (Z_le_gt_dec lo hi) as [|Hgt]; [done|].
    destruct (Z.eq_dec ymin ymax) as [Heq|Hne].
    - pose proof (month_date_cases lo) as Hc. pose proof (month_date_cases hi) as Hc'.
      cbv zeta in Hc, Hc'.
      assert (ES.InLeapYear lo = ES.InLeapYear hi) as Hl
        by (unfold ES.InLeapYear; by rewrite Ylo, Yhi, Heq).
      assert (0 <= ES.InLeapYear hi <= 1)
        by (unfold ES.InLeapYear; case_match; lia).
      assert (ES.Day hi <= ES.Day lo) by (unfold ES.Day, ES.msPerDay; zlia).
      unfold ES.DayWithinYear in Hc, Hc'. rewrite Ylo in Hc. rewrite Yhi in Hc'.
      rewrite Heq in Hc. lia.
    - assert (hi <= lo) as Hle' by lia.
      apply YearFromTime_mono in Hle'. lia. }
  destruct (birthdate_draw options s time s1 lo hi) as (r & Hr & Hdraw & Hin);
    [done| |lia|lia|done|].
  { unfold mode_bounds. rewrite Hmode. unfold year_bounds. cbv zeta.
    fold ymin ymax. by rewrite Hlo, Hhi. }
  exists lo, hi, r. do 5 (split; [done|]).
  pose proof (YearFromTime_mono lo r (proj1 Hin)).
  pose proof (YearFromTime_mono r hi (proj2 Hin)). lia.
Qed.

(** C9, amended.  In mode ['age'] with [min <= max] (defaults 18 and 80
    applied), [birthdate] never throws the error of an invalid range; and
    whenever the two bounds it computes from a reference date are instants,
    the minimum is strictly before the maximum. *)
Theorem age_mode_range_error_unreachable options s :
  mode options = Some age →
  default 18 (min options) <= default 80 (max options) →
  (∀ detail, result (birthdate options) s ≠ Throw (InvalidRangeError detail)) ∧
  (∀ d time lo hi s',
     timeValue (heap s) d = Fin time →
     - ES.maxTime <= time <= ES.maxTime →
     birthdate_bounds options age d (Fin (ES.YearFromTime time)) s
       = (Ok (Fin lo, Fin hi), s') →
     lo < hi).
Proof.
  intros Hmode Hages. split.
  - intros detail. unfold result.
    destruct (reference (refDate options) s) as [[[|time]|e] s1] eqn:Href.
    + exfalso. revert Href. unfold reference. rewrite !bind_run.
      destruct (refDate_or_default _ s) as [[r|e] s0]; [|done].
      rewrite bind_run, toDate_run. simpl.
      destruct (Date_value (heap s0) r) eqn:E; simpl; [done|].
      unfold getTime. cbn [heap]. by rewrite timeValue_fresh.
    + rewrite (birthdate_run _ _ _ _ Href).
      unfold mode_bounds. rewrite Hmode.
      change (default year (Some age)) with age. cbn iota.
      pose proof (age_bounds_not_reversed options time Hages) as Hnr.
      destruct (age_bounds options time) as [lo hi]. cbn [fst snd] in Hnr.
      rewrite Hnr. by destruct (number_int _ _ _).
    + revert Href. unfold reference, birthdate. rewrite !bind_run.
      destruct (refDate_or_default_ok (refDate options) s) as (r & s0 & ->).
      rewrite !bind_run, toDate_run. cbv zeta.
      destruct (isNaN _); [done|].
      unfold getTime. by rewrite bind_run.
  - intros d time lo hi s' Hd Hrange Hb.
    pose proof (birthdate_bounds_run
                  {| min := min options; max := max options; mode := Some age;
                     refDate := refDate options |} d time s Hd Hrange) as Hrun.
    unfold mode_bounds in Hrun. cbn [mode] in Hrun.
    change (default year (Some age)) with age in Hrun. cbn iota in Hrun.
    assert (birthdate_bounds options age d (Fin (ES.YearFromTime time)) s
            = birthdate_bounds
                {| min := min options; max := max options; mode := Some age;
                   refDate := refDate options |} age d
                (Fin (ES.YearFromTime time)) s) as Heq by done.
    rewrite Heq, Hrun in Hb.
    pose proof (f_equal (λ x, match x.1 with Ok b => b | Throw _ => (NaN, NaN) end)
                  Hb) as Hb'.
    cbn [fst] in Hb'.
    by apply (age_bounds_lt options time).
Qed.

Transparent withUTCFullYear Date_UTC.

End Birthdate.

(** * Instances of the theorems and counterexamples *)

(** A date between 2020 and 2030. *)
Lemma between_invalid_range_iff_else_in_range_witness :
  let o := {| from := VString "2020-01-01T00:00:00.000Z";
              to := VString "2030-01-01T00:00:00.000Z"; count := None |} in
  (instant (H := Sample.collaborators) (between (Some o)) (Sample.start 42)
     = Throw (InvalidRangeError FromAfterTo)
     ↔ 1577836800000 > 1893456000000) ∧
  (1577836800000 <= 1893456000000 →
     ∃ r, instant (H := Sample.collaborators) (between (Some o)) (Sample.start 42)
            = Ok (Fin r) ∧
          (Sample.lcg_int (Fin 1577836800000) (Fin 1893456000000) 42).1 = Fin r ∧
          1577836800000 <= r <= 1893456000000).
Proof.
  intros o.
  apply (between_invalid_range_iff_else_in_range
           (H := Sample.collaborators) Sample_int_in_range o (Sample.start 42));
    reflexivity.
Defined.

(** The epoch as lower bound is taken for a missing bound. *)
Lemma missing_bounds_rejected_witness :
  let o := {| from := VNumber (Fin 0); to := VNumber (Fin 86400000);
              count := None |} in
  between (H := Sample.collaborators) (Some o) (Sample.start 7)
    = (Throw MissingBoundsError, Sample.start 7) ∧
  betweens (H := Sample.collaborators) (Some o) (Sample.start 7)
    = (Throw MissingBoundsError, Sample.start 7).
Proof.
  intros o.
  destruct (missing_bounds_rejected (H := Sample.collaborators) o
              (Sample.start 7)) as (Hfalsy & Hthrow & _).
  apply Hthrow. left. apply Hfalsy. right. right. reflexivity.
Defined.





(** C4 as stated fails.  With [min: 18], [max: 65] and the reference
    2020-01-01T00:00:00Z the window starts on 1954-01-01T00:00:00Z; when the
    random source draws that lower bound (seed 0) the birth year is 1954,
    and 2020 - 1954 = 66 is not in [18, 65].  Nor is there a window for
    every reference instant and every pair of ages: with the earliest date
    as reference the lower bound leaves the range of [Date] and is [NaN],
    and with [min: 70], [max: 18] the bounds are reversed and [birthdate]
    throws. *)
Lemma age_mode_window_counterexample :
  instant (H := Sample.collaborators)
    (birthdate (adults (VString "2020-01-01T00:00:00.000Z"))) (Sample.start 0)
    = Ok (Fin jan1954) ∧
  ES.YearFromTime Sample.ref2020 - ES.YearFromTime jan1954 = 66 ∧
  ¬ (18 <= ES.YearFromTime Sample.ref2020 - ES.YearFromTime jan1954 <= 65) ∧
  withUTCFullYear (Fin (- ES.maxTime))
    (Fin (ES.YearFromTime (- ES.maxTime) - 65 - 1)) = NaN ∧
  instant (H := Sample.collaborators)
    (birthdate {| min := Some 70; max := Some 18; mode := Some age;
                  refDate := VNumber (Fin Sample.ref2020) |}) (Sample.start 0)
    = Throw (InvalidRangeError (MaxBelowMin (Some 18) (Some 70))).
Proof.
  split; [reflexivity|]. split; [by vm_compute|].
  split; [|split; [by vm_compute|reflexivity]].
  assert (ES.YearFromTime Sample.ref2020 - ES.YearFromTime jan1954 = 66) as ->
    by (by vm_compute).
  lia.
Qed.

(** The window for ages 18 to 65 at 2020-01-01T00:00:00Z. *)
Lemma age_mode_window_witness :
  let options := adults (VString "2020-01-01T00:00:00.000Z") in
  let s := Sample.start 1514764800000 in
  ES.YearFromTime jan1954 = ES.YearFromTime Sample.ref2020 - 65 - 1 ∧
  ES.YearFromTime jan2002 = ES.YearFromTime Sample.ref2020 - 18 ∧
  ∃ r, instant (H := Sample.collaborators) (birthdate options) s = Ok (Fin r) ∧
       (Sample.lcg_int (Fin jan1954) (Fin jan2002) 1514764800000).1 = Fin r ∧
       jan1954 <= r <= jan2002 ∧
       18 <= ES.YearFromTime Sample.ref2020 - ES.YearFromTime r <= 65 + 1.
Proof.
  intros options s.
  apply (age_mode_window (H := Sample.collaborators) Sample_int_in_range
           options s Sample.ref2020
           (Sample.with_ref 1514764800000)
           jan1954 jan2002).
  - reflexivity.
  - reflexivity.
  - vm_compute. reflexivity.
  - vm_compute. reflexivity.
  - vm_compute. discriminate.
Defined.

(** The two extreme birth years are reached: the seed 0 draws the lower
    bound (1954), the seed [jan2002 - jan1954] the upper one (2002). *)
Example age_mode_extremes_reached :
  instant (H := Sample.collaborators)
    (birthdate (adults (VNumber (Fin Sample.ref2020)))) (Sample.start 0)
    = Ok (Fin jan1954) ∧
  instant (H := Sample.collaborators)
    (birthdate (adults (VNumber (Fin Sample.ref2020))))
    (Sample.start (jan2002 - jan1954))
    = Ok (Fin jan2002) ∧
  ES.YearFromTime jan1954 = 2020 - 65 - 1 ∧
  ES.YearFromTime jan2002 = 2020 - 18.
Proof. repeat split; try reflexivity; by vm_compute. Qed.

(** C5 as stated fails.  The year 300000 is beyond the range of [Date]:
    both bounds are [NaN], no window is built, and the date that comes back
    is invalid (it has no year) when the random source answers [NaN] to
    [NaN] bounds. *)
Lemma year_mode_window_counterexample :
  let options := years 300000 300000 (VNumber (Fin Sample.ref2020)) in
  result (H := Sample.collaborators)
    (birthdate_bounds options year 0%nat (Fin 2020))
    (Sample.with_ref 0)
    = Ok (NaN, NaN) ∧
  instant (H := Sample.collaborators) (birthdate options) (Sample.start 0)
    = Ok NaN ∧
  UTCFullYear NaN = NaN.
Proof. repeat split; reflexivity. Qed.

(** Birth years 1900 to 2000. *)
Lemma year_mode_window_witness :
  let options := years 1900 2000 (VNumber (Fin Sample.ref2020)) in
  let s := Sample.start 42 in
  ∃ lo hi r,
    (ES.YearFromTime lo = 1900 ∧ ES.MonthFromTime lo = 0 ∧
     ES.DateFromTime lo = 2 ∧ ES.TimeWithinDay lo = 0) ∧
    (ES.YearFromTime hi = 2000 ∧ ES.MonthFromTime hi = 11 ∧
     ES.DateFromTime hi = 30 ∧ ES.TimeWithinDay hi = 0) ∧
    instant (H := Sample.collaborators) (birthdate options) s = Ok (Fin r) ∧
    (Sample.lcg_int (Fin lo) (Fin hi) 42).1 = Fin r ∧
    lo <= r <= hi ∧
    1900 <= ES.YearFromTime r <= 2000.
Proof.
  intros options s.
  apply (year_mode_window (H := Sample.collaborators) Sample_int_in_range
           options s Sample.ref2020
           (Sample.with_ref 42)).
  - reflexivity.
  - reflexivity.
  - unfold representable_year. simpl. lia.
  - unfold representable_year. simpl. lia.
  - simpl. lia.
Defined.

(** C9 as stated fails.  With [min: 18] and [max: 300000] the ages satisfy
    [min <= max], but the year of the lower bound, 2020 - 300000 - 1, is
    outside the range of [Date]: the computed minimum is [NaN], which is
    not before the computed maximum. *)
Lemma age_mode_range_error_unreachable_counterexample :
  let options :=
    {| min := Some 18; max := Some 300000; mode := Some age;
       refDate := VNumber (Fin Sample.ref2020) |} in
  default 18 (min options) <= default 80 (max options) ∧
  result (H := Sample.collaborators)
    (birthdate_bounds options age 0%nat (Fin 2020))
    (Sample.with_ref 0)
    = Ok (NaN, Fin jan2002) ∧
  num_lt NaN (Fin jan2002) = false.
Proof. split; [simpl; lia|]. split; reflexivity. Qed.

(** Ages 18 to 65 at 2020-01-01T00:00:00Z. *)
Lemma age_mode_range_error_unreachable_witness :
  let options := adults (VNumber (Fin Sample.ref2020)) in
  let s := Sample.with_ref 3 in
  (∀ detail, result (H := Sample.collaborators) (birthdate options) s
             ≠ Throw (InvalidRangeError detail)) ∧
  (∀ lo hi s',
     birthdate_bounds (H := Sample.collaborators) options age 0%nat
       (Fin (ES.YearFromTime Sample.ref2020)) s = (Ok (Fin lo, Fin hi), s') →
     lo < hi).
Proof.
  intros options s.
  destruct (age_mode_range_error_unreachable (H := Sample.collaborators)
              options s) as [P Q]; [reflexivity | simpl; lia |].
  split; [exact P|]. intros lo hi s' Hb.
  apply (Q 0%nat Sample.ref2020 lo hi s'); [reflexivity | vm_compute | exact Hb].
  split; discriminate.
Defined.


(** The default count is three; a window of one instant gives that instant
    three times. *)
Example betweens_default_count_duplicates :
  instants (H := Sample.collaborators)
    (betweens (Some {| from := VNumber (Fin Sample.ref2020);
                       to := VNumber (Fin Sample.ref2020); count := None |}))
    (Sample.start 42)
  = Ok [Fin Sample.ref2020; Fin Sample.ref2020; Fin Sample.ref2020].
Proof. reflexivity. Qed.

(** Section 8: a range of one instant returns that instant. *)
Example between_single_point :
  instant (H := Sample.collaborators)
    (between (Some {| from := VString "2020-01-01T00:00:00.000Z";
                      to := VString "2020-01-01T00:00:00.000Z";
                      count := None |}))
    (Sample.start 42)
  = Ok (Fin Sample.ref2020).
Proof. reflexivity. Qed.

(** The English month table has no contextual forms: the abbreviated names
    are used. *)
Lemma variant_resolution_witness :
  ∃ x, result (H := Sample.collaborators) (month (Some true) (Some true))
         (Sample.start 5) = Ok x ∧
       x ∈ ["Jan"; "Feb"; "Mar"; "Apr"; "May"; "Jun"; "Jul"; "Aug"; "Sep";
            "Oct"; "Nov"; "Dec"]%string.
Proof.
  destruct (variant_resolution (H := Sample.collaborators)
              Sample_element_of_list (Some true) (Some true)) as (_ & _ & P).
  apply P; [reflexivity | reflexivity | discriminate].
Defined.

(** A reference date passed to [birthdate] as a [Date] object is not
    modified. *)
Lemma caller_dates_unchanged_witness :
  let s := Sample.with_ref 11 in
  let c := call_birthdate (adults (VDate 0%nat)) in
  timeValue (heap (after c s)) 0%nat = timeValue (heap s) 0%nat ∧
  (∀ date name d', (toDate date name s).1 = Ok d' → d' ≠ 0%nat).
Proof.
  intros s c.
  apply (caller_dates_unchanged (H := Sample.collaborators) c s 0%nat).
  simpl. lia.
Defined.

(** * Further properties of the module *)

(** ** [toDate] and [between] *)

Section MoreBetween.
Context `{Collaborators}.
Hypothesis random : int_in_range.

Lemma Date_value_existing h ext v :
  existing h v → Date_value (h ++ ext) v = Date_value h v.
Proof.
  destruct v; try done. intros Hd. unfold Date_value.
  by rewrite timeValue_app_l.
Qed.

(** [toDate] never returns an invalid date.  It returns a new date holding
    the instant its argument coerces to, an integer within the range of
    [Date], and throws the error that names the argument exactly when the
    coercion gives [NaN]. *)
Theorem toDate_valid_or_throws date name s :
  (∀ t, Date_value (heap s) date = Fin t →
        instant (toDate date name) s = Ok (Fin t)) ∧
  (Date_value (heap s) date = NaN ↔
     instant (toDate date name) s = Throw (InvalidDateError name date)) ∧
  (∀ v, instant (toDate date name) s = Ok v →
        ∃ t, v = Fin t ∧ Date_value (heap s) date = Fin t ∧
             - ES.maxTime <= t <= ES.maxTime).
Proof.
  unfold instant. rewrite toDate_run. cbv zeta.
  destruct (Date_value (heap s) date) as [|t] eqn:E; cbn [isNaN].
  - repeat split; done.
  - cbn [heap]. rewrite timeValue_fresh.
    apply TimeClip_Fin in E as [_ E].
    repeat split; try done.
    + by intros t' [= ->].
    + intros v [= <-]. by exists t.
Qed.

(** Whenever [between] returns, both bounds had passed the presence check
    and coerced to instants, the date returned holds an integer between
    them (it is never an invalid date), and the random source has been
    asked exactly once. *)
Theorem between_returns_within_bounds o s v :
  existing (heap s) (to o) →
  instant (between (Some o)) s = Ok v →
  ∃ fromMs toMs r,
    truthy (from o) = true ∧ truthy (to o) = true ∧
    Date_value (heap s) (from o) = Fin fromMs ∧
    Date_value (heap s) (to o) = Fin toMs ∧
    v = Fin r ∧ fromMs <= r <= toMs ∧
    number_int (Fin fromMs) (Fin toMs) (gen s)
      = (Fin r, gen (between (Some o) s).2).
Proof.
  intros Hto. unfold instant. rewrite between_cases.
  destruct (truthy (from o)) eqn:Tf; [|done].
  destruct (truthy (to o)) eqn:Tt; [|done]. cbn [negb orb].
  destruct (Date_value (heap s) (from o)) as [|fromMs] eqn:Ef; [done|].
  rewrite Date_value_existing by done.
  destruct (Date_value (heap s) (to o)) as [|toMs] eqn:Et; [done|].
  destruct (toMs <? fromMs) eqn:E; [done|].
  destruct (TimeClip_Fin _ _ Ef) as [_ Rf].
  destruct (TimeClip_Fin _ _ Et) as [_ Rt].
  destruct (random fromMs toMs (gen s)) as (r & Hr & Hin); [lia|].
  destruct (number_int (Fin fromMs) (Fin toMs) (gen s)) as [x g] eqn:En.
  cbn [fst] in Hr. subst x. rewrite instant_fresh, TimeClip_in_range by lia.
  intros [= <-]. exists fromMs, toMs, r. repeat split; try done; lia.
Qed.

(** A bound that passes the presence check but does not coerce to an
    instant makes [between] throw the invalid-date error that names it:
    [from] is examined first, then [to], and only then the order of the
    two. *)
Theorem between_invalid_bound o s :
  truthy (from o) = true → truthy (to o) = true →
  existing (heap s) (to o) →
  (Date_value (heap s) (from o) = NaN →
     result (between (Some o)) s = Throw (InvalidDateError "from" (from o))) ∧
  (Date_value (heap s) (from o) ≠ NaN → Date_value (heap s) (to o) = NaN →
     result (between (Some o)) s = Throw (InvalidDateError "to" (to o))).
Proof.
  intros Tf Tt Hto. unfold result. rewrite between_cases, Tf, Tt.
  cbn [negb orb]. split.
  - by intros ->.
  - intros Hf Ht. destruct (Date_value (heap s) (from o)) as [|fromMs]; [done|].
    by rewrite Date_value_existing, Ht.
Qed.


End MoreBetween.

(** ** The single-window policies and [anytime] *)

Section MorePolicies.
Context `{Collaborators}.
Hypothesis random : int_in_range.

Lemma anytime_reference refDate s :
  anytime refDate s
    = (reference refDate ≫= λ time, between (anytime_window time)) s.
Proof.
  unfold anytime, reference.
  rewrite bind_assoc_run, !bind_run.
  destruct (refDate_or_default refDate s) as [[r|e] s1]; [|done].
  by rewrite bind_assoc_run.
Qed.

Lemma between_window_valid lo hi s v :
  instant (between (window (Fin lo) (Fin hi))) s = Ok v →
  ∃ r, v = Fin r ∧ lo <= r <= hi.
Proof.
  unfold instant, window. rewrite between_cases. cbn [from to].
  destruct (negb (truthy (VNumber (Fin lo))) || negb (truthy (VNumber (Fin hi))));
    [done|].
  unfold Date_value.
  destruct (TimeClip (Fin lo)) as [|lo'] eqn:Elo; [done|].
  apply TimeClip_Fin in Elo as [[= <-] Rlo].
  destruct (TimeClip (Fin hi)) as [|hi'] eqn:Ehi; [done|].
  apply TimeClip_Fin in Ehi as [[= <-] Rhi].
  destruct (hi <? lo) eqn:E; [done|].
  destruct (random lo hi (gen s)) as (r' & Hr & Hin); [lia|].
  destruct (number_int (Fin lo) (Fin hi) (gen s)) as [x g].
  cbn [fst] in Hr. subst x. rewrite instant_fresh.
  rewrite TimeClip_in_range by lia. intros [= <-]. by exists r'.
Qed.

Lemma between_window_zero lo hi s :
  lo = 0 ∨ hi = 0 →
  between (window (Fin lo) (Fin hi)) s = (Throw MissingBoundsError, s).
Proof.
  intros Hz. unfold window. rewrite between_cases. cbn [from to truthy].
  destruct Hz as [-> | ->]; cbn [Z.eqb negb orb]; by rewrite ?orb_true_r.
Qed.

Lemma reference_throws refDate s e s1 :
  reference refDate s = (Throw e, s1) →
  (refDate_or_default refDate ≫= λ r, toDate r "refDate") s = (Throw e, s1) ∧
  ∃ r, e = InvalidDateError "refDate" r.
Proof.
  unfold reference. rewrite !bind_run.
  destruct (refDate_or_default_ok refDate s) as (r & s0 & ->).
  rewrite bind_run, toDate_run. cbv zeta.
  destruct (isNaN _); [|done]. intros [= <- <-]. split; [done|]. by exists r.
Qed.

(** [anytime] draws within 365 days of the reference instant: when the two
    ends of that window are non-zero and within the range of [Date] it
    returns a date, and every date it returns holds an integer of the
    window. *)
Theorem anytime_within_a_year refDate s time s1 :
  reference refDate s = (Ok (Fin time), s1) →
  (usable (time - Spec.year_ms) (time + Spec.year_ms) →
     ∃ r, instant (anytime refDate) s = Ok (Fin r) ∧
          time - Spec.year_ms <= r <= time + Spec.year_ms) ∧
  (∀ v, instant (anytime refDate) s = Ok v →
        ∃ r, v = Fin r ∧ time - Spec.year_ms <= r <= time + Spec.year_ms).
Proof.
  intros Href. unfold instant. rewrite anytime_reference, bind_run, Href.
  unfold anytime_window. cbn [num_sub num_add].
  change (1000 * 60 * 60 * 24 * 365) with Spec.year_ms.
  split.
  - intros Hu. apply (between_window random _ _ s1 Hu).
    unfold Spec.year_ms, Spec.day_ms. lia.
  - intros v Hv. by apply (between_window_valid _ _ s1).
Qed.

(** A span of years or days that is not positive is rejected before the
    reference date is looked at (it may be invalid) and before the random
    source is used. *)
Theorem nonpositive_span_rejected years days refDate s :
  years <= 0 → days <= 0 →
  (result (past (Some years) refDate) s = Throw (InvalidArgumentError "Years") ∧
   result (future (Some years) refDate) s = Throw (InvalidArgumentError "Years") ∧
   result (recent (Some days) refDate) s = Throw (InvalidArgumentError "Days") ∧
   result (soon (Some days) refDate) s = Throw (InvalidArgumentError "Days")) ∧
  (gen (past (Some years) refDate s).2 = gen s ∧
   gen (future (Some years) refDate s).2 = gen s ∧
   gen (recent (Some days) refDate s).2 = gen s ∧
   gen (soon (Some days) refDate s).2 = gen s).
Proof.
  intros Hy Hd. unfold result, past, future, recent, soon. cbn [default].
  assert (gen (refDate_or_default refDate s).2 = gen s) as Hgen
    by (by destruct refDate).
  rewrite !bind_run.
  destruct (refDate_or_default_ok refDate s) as (r & s0 & Hr).
  rewrite Hr in *. cbn [snd] in Hgen.
  unfold id.
  destruct (years <=? 0) eqn:Ey; [|lia].
  destruct (days <=? 0) eqn:Ed; [|lia].
  by repeat split.
Qed.

(** A reference date that does not coerce to an instant makes every method
    that takes one throw the invalid-date error that names [refDate]. *)
Theorem invalid_reference_rejected years days ref s e s1 :
  reference ref s = (Throw e, s1) →
  0 < years → 0 < days →
  (∃ r, e = InvalidDateError "refDate" r) ∧
  result (anytime ref) s = Throw e ∧
  result (past (Some years) ref) s = Throw e ∧
  result (future (Some years) ref) s = Throw e ∧
  result (recent (Some days) ref) s = Throw e ∧
  result (soon (Some days) ref) s = Throw e ∧
  (∀ options, refDate options = ref →
              result (birthdate options) s = Throw e).
Proof.
  intros Href Hy Hd.
  destruct (reference_throws _ _ _ _ Href) as [Hd' He].
  split; [done|]. unfold result.
  rewrite anytime_reference, past_reference, future_reference,
    recent_reference, soon_reference by done.
  rewrite !bind_run, Href. do 5 (split; [done|]).
  intros options <-. unfold birthdate.
  by rewrite <- bind_assoc_run, bind_run, Hd'.
Qed.

(** The number 0 as a bound of the window is taken for a missing bound:
    a policy throws the missing-bounds error when the reference instant is
    1000 ms away from the epoch on the side of its window, or as far from
    the epoch as the window is long; [anytime] does when the reference is
    365 days away from the epoch. *)
Theorem zero_bound_taken_for_missing years days refDate s time s1 :
  reference refDate s = (Ok (Fin time), s1) →
  0 < years → 0 < days →
  (time = 1000 ∨ time = years * Spec.year_ms →
     result (past (Some years) refDate) s = Throw MissingBoundsError) ∧
  (time = -1000 ∨ time = - (years * Spec.year_ms) →
     result (future (Some years) refDate) s = Throw MissingBoundsError) ∧
  (time = 1000 ∨ time = days * Spec.day_ms →
     result (recent (Some days) refDate) s = Throw MissingBoundsError) ∧
  (time = -1000 ∨ time = - (days * Spec.day_ms) →
     result (soon (Some days) refDate) s = Throw MissingBoundsError) ∧
  (time = Spec.year_ms ∨ time = - Spec.year_ms →
     result (anytime refDate) s = Throw MissingBoundsError).
Proof.
  intros Href Hy Hd. unfold result.
  rewrite anytime_reference, past_reference, future_reference,
    recent_reference, soon_reference by done.
  rewrite !bind_run, Href.
  unfold past_window, future_window, recent_window, soon_window,
    anytime_window, Spec.year_ms, Spec.day_ms.
  cbn [num_sub num_add].
  repeat split; intros Hz; rewrite between_window_zero; try done; lia.
Qed.

End MorePolicies.

(** ** Errors and the random source *)

Section Quiet.
Context `{Collaborators}.

Lemma keeps_gen_ret {A} (a : A) : keeps_gen (mret a).
Proof. intros s. done. Qed.

Lemma keeps_gen_throw {A} e : keeps_gen (throw (A := A) e).
Proof. intros s. done. Qed.

Lemma keeps_gen_bind {A B} (m : M A) (k : A → M B) :
  keeps_gen m → (∀ a, keeps_gen (k a)) → keeps_gen (m ≫= k).
Proof.
  intros Hm Hk s. rewrite bind_run. specialize (Hm s).
  destruct (m s) as [[a|e] s1]; [|done]. cbn [snd] in Hm.
  by rewrite Hk.
Qed.

Lemma keeps_gen_new_Date v : keeps_gen (new_Date v).
Proof. intros s. done. Qed.

Lemma keeps_gen_getTime d : keeps_gen (getTime d).
Proof. intros s. done. Qed.

Lemma keeps_gen_getUTCFullYear d : keeps_gen (getUTCFullYear d).
Proof. intros s. done. Qed.

Lemma keeps_gen_setUTCFullYear d y : keeps_gen (setUTCFullYear d y).
Proof. intros s. done. Qed.

Lemma keeps_gen_defaultRefDate : keeps_gen faker_defaultRefDate.
Proof. intros s. done. Qed.

Lemma keeps_gen_assertLocaleData x path type :
  keeps_gen (assertLocaleData x path type).
Proof. intros s. by destruct x as [[|[|]]|]. Qed.

Create HintDb keeps_gen.
Hint Resolve keeps_gen_ret keeps_gen_throw keeps_gen_new_Date
  keeps_gen_getTime keeps_gen_getUTCFullYear keeps_gen_setUTCFullYear
  keeps_gen_defaultRefDate keeps_gen_assertLocaleData : keeps_gen.

Ltac keeps_gen_step :=
  match goal with
  | |- keeps_gen (_ ≫= _) => apply keeps_gen_bind; [|intros]
  | |- keeps_gen (if ?b then _ else _) => destruct b
  | |- keeps_gen (match ?x with _ => _ end) => destruct x
  | |- keeps_gen _ => solve [auto with keeps_gen]
  end.

Lemma keeps_gen_refDate_or_default v : keeps_gen (refDate_or_default v).
Proof. unfold refDate_or_default. repeat keeps_gen_step. Qed.

Lemma keeps_gen_toDate date name : keeps_gen (toDate date name).
Proof. unfold toDate. repeat keeps_gen_step. Qed.

Lemma keeps_gen_birthdate_bounds options mode' d refYear :
  keeps_gen (birthdate_bounds options mode' d refYear).
Proof. unfold birthdate_bounds. repeat keeps_gen_step. Qed.

Hint Resolve keeps_gen_refDate_or_default keeps_gen_toDate
  keeps_gen_birthdate_bounds : keeps_gen.

Lemma quiet_keeps_gen {A} (m : M A) : keeps_gen m → quiet m.
Proof. intros Hm s e _. apply Hm. Qed.

Lemma quiet_bind {A B} (m : M A) (k : A → M B) :
  keeps_gen m → (∀ a, quiet (k a)) → quiet (m ≫= k).
Proof.
  intros Hm Hk s e. rewrite bind_run. specialize (Hm s).
  destruct (m s) as [[a|e'] s1]; cbn [snd] in Hm; [|done].
  intros He. by rewrite (Hk a s1 e He).
Qed.

(** The draw and the date built from it do not throw. *)
Lemma quiet_draw lo hi :
  quiet (faker_number_int lo hi ≫= λ r, new_Date (VNumber r)).
Proof.
  intros s e. rewrite bind_run. unfold faker_number_int.
  by destruct (number_int lo hi (gen s)).
Qed.

Lemma quiet_arrayElement l : quiet (faker_arrayElement l).
Proof.
  intros s e. unfold faker_arrayElement. by destruct (arrayElement l (gen s)).
Qed.

Ltac quiet_step :=
  match goal with
  | |- quiet (faker_number_int _ _ ≫= _) => apply quiet_draw
  | |- quiet (faker_arrayElement _) => apply quiet_arrayElement
  | |- quiet (throw _) => apply quiet_keeps_gen, keeps_gen_throw
  | |- quiet (_ ≫= _) => apply quiet_bind; [auto with keeps_gen|intros]
  | |- quiet (if ?b then _ else _) => destruct b
  | |- quiet (match ?x with _ => _ end) => destruct x
  end.

Lemma quiet_between options : quiet (between options).
Proof. unfold between. repeat quiet_step. Qed.

Lemma quiet_birthdate options : quiet (birthdate options).
Proof. unfold birthdate. repeat quiet_step. Qed.

(** A call that throws has not used the random source: a failed call does
    not shift a seeded sequence.  ([betweens] is left out: it may draw its
    count before it fails.) *)
Theorem failed_call_keeps_random_source c s e :
  (∀ options, c ≠ call_betweens options) →
  failure c s = Some e →
  gen (after c s) = gen s.
Proof.
  intros Hc.
  assert (∀ A (m : M A), quiet m → thrown (m s).1 = Some e → gen (m s).2 = gen s)
    as Hq.
  { intros A m Hm Hthrown. destruct (m s).1 eqn:E; [done|].
    by apply (Hm s e0). }
  destruct c; unfold failure, after; apply Hq.
  - apply quiet_keeps_gen, keeps_gen_toDate.
  - unfold anytime. repeat quiet_step. apply quiet_between.
  - unfold past. repeat quiet_step. apply quiet_between.
  - unfold future. repeat quiet_step. apply quiet_between.
  - apply quiet_between.
  - by destruct (Hc options).
  - unfold recent. repeat quiet_step. apply quiet_between.
  - unfold soon. repeat quiet_step. apply quiet_between.
  - apply quiet_birthdate.
  - unfold month. repeat quiet_step.
  - unfold weekday. repeat quiet_step.
Qed.

End Quiet.

(** ** [betweens] and the draws it makes *)

Section MoreBetweens.
Context `{Collaborators}.
Hypothesis random : int_in_range.

Lemma times_between_draws o s fromMs toMs (n : nat) :
  truthy (from o) = true → truthy (to o) = true →
  Date_value (heap s) (from o) = Fin fromMs →
  Date_value (heap s) (to o) = Fin toMs →
  fromMs <= toMs →
  ∃ ds s', times n (between (Some o)) s = (Ok ds, s') ∧
           heap s `prefix_of` heap s' ∧
           timeValue (heap s') <$> ds
             = (draws n (Fin fromMs) (Fin toMs) (gen s)).1 ∧
           gen s' = (draws n (Fin fromMs) (Fin toMs) (gen s)).2.
Proof.
  intros Tf Tt Hf Ht Hle. revert s Hf Ht.
  induction n as [|n IH]; intros s Hf Ht.
  - exists [], s. by repeat split.
  - destruct (between_draw random o s _ _ Tf Tt Hf Ht Hle)
      as (r & g & Hb & Hdraw & Hin).
    set (s1 := {| heap := heap s ++ [Fin fromMs; Fin toMs; Fin r]; gen := g |})
      in *.
    assert (heap s `prefix_of` heap s1) as Hp by apply prefix_app_r, reflexivity.
    destruct (IH s1) as (ds & s' & Hrun & Hp' & Hvals & Hgen).
    { by apply (Date_value_prefix (heap s)). }
    { by apply (Date_value_prefix (heap s)). }
    exists ((length (heap s) + 2)%nat :: ds), s'.
    change (times (S n) (between (Some o)))
      with (x ← between (Some o); xs ← times n (between (Some o)); mret (x :: xs)).
    rewrite bind_run, Hb, bind_run, Hrun.
    cbn [draws]. rewrite Hdraw.
    change (gen s1) with g in Hvals, Hgen.
    destruct (draws n (Fin fromMs) (Fin toMs) g) as [rs g2].
    cbn [fst snd] in *. split; [done|]. split; [by etrans|]. split; [|done].
    rewrite fmap_cons, Hvals. f_equal.
    apply (timeValue_prefix (heap s1)); [done|]. apply instant_fresh.
Qed.

(** [betweens] returns its draws: the instants of the dates it returns are,
    up to their order, the successive draws that the random source makes
    from the window after the count is resolved, and the random source is
    left where those draws left it. *)
Theorem betweens_returns_its_draws o s fromMs toMs n s0 :
  truthy (from o) = true → truthy (to o) = true →
  Date_value (heap s) (from o) = Fin fromMs →
  Date_value (heap s) (to o) = Fin toMs →
  fromMs <= toMs →
  rangeToNumber (default (Fixed 3) (count o)) s = (Ok (Fin n), s0) →
  ∃ rs,
    instants (betweens (Some o)) s = Ok rs ∧
    rs ≡ₚ (draws (Z.to_nat n) (Fin fromMs) (Fin toMs) (gen s0)).1 ∧
    gen (betweens (Some o) s).2
      = (draws (Z.to_nat n) (Fin fromMs) (Fin toMs) (gen s0)).2.
Proof.
  intros Tf Tt Hf Ht Hle Hcount.
  assert (heap s0 = heap s) as Hheap.
  { destruct (default (Fixed 3) (count o)); simpl in Hcount.
    - by injection Hcount as _ <-.
    - unfold faker_number_int in Hcount.
      destruct (number_int _ _ _). by injection Hcount as _ <-. }
  set (o' := {| from := from o; to := to o; count := None |}).
  destruct (times_between_draws o' s0 fromMs toMs (Z.to_nat n))
    as (ds & s' & Hrun & Hp & Hvals & Hgen);
    [done|done|by rewrite Hheap..|done|].
  unfold instants, betweens. rewrite Tf, Tt. cbn [negb orb].
  unfold faker_multiple. rewrite bind_assoc_run, bind_run, Hcount.
  rewrite bind_run. fold o'. rewrite Hrun.
  unfold sort_by_time, Array_sort. cbn [fst snd].
  eexists. split; [done|]. split; [|done].
  rewrite <- Hvals. apply fmap_Permutation, merge_sort_Permutation.
Qed.

End MoreBetweens.

(** ** [birthdate]: the year that is set, and the errors *)

Section MoreCalendar.
Import ES.


(** The day of month is a day of the month. *)
Lemma DateFromTime_bounds (t : Z) :
  1 <= DateFromTime t <= days_in_month (MonthFromTime t) (InLeapYear t).
Proof.
  pose proof (month_date_cases t) as Hc. cbv zeta in Hc.
  pose proof (DayWithinYear_bounds t) as Hd.
  assert (0 <= InLeapYear t <= 1) by (unfold InLeapYear; case_match; lia).
  destruct Hc as [(-> & -> & ?)|[(-> & -> & ?)|[(-> & -> & ?)|[(-> & -> & ?)|
    [(-> & -> & ?)|[(-> & -> & ?)|[(-> & -> & ?)|[(-> & -> & ?)|[(-> & -> & ?)|
    [(-> & -> & ?)|[(-> & -> & ?)|(-> & -> & ?)]]]]]]]]]]];
    unfold days_in_month; lia.
Qed.

(** The [k]-th day of year [y], at [tm] within the day. *)
Lemma day_in_year (y k tm : Z) :
  0 <= k < DaysInYear y → 0 <= tm < msPerDay →
  YearFromTime (MakeDate (DayFromYear y + k) tm) = y ∧
  DayWithinYear (MakeDate (DayFromYear y + k) tm) = k.
Proof.
  intros Hk Htm.
  destruct (Day_MakeDate (DayFromYear y + k) tm Htm) as [HD _].
  assert (YearFromTime (MakeDate (DayFromYear y + k) tm) = y) as HY.
  { apply YearFromTime_unique. rewrite HD, DayFromYear_succ. lia. }
  split; [done|]. unfold DayWithinYear. rewrite HD, HY. lia.
Qed.

Lemma month_date_at (t y m dt l : Z) :
  YearFromTime t = y →
  l = (if InLeapYearOf y then 1 else 0) →
  DayWithinYear t = monthStart y m + dt - 1 →
  0 <= m <= 11 →
  (1 <= dt <= days_in_month m l →
     MonthFromTime t = m ∧ DateFromTime t = dt) ∧
  (m = 1 → dt = 29 → l = 0 → MonthFromTime t = 2 ∧ DateFromTime t = 1).
Proof.
  intros HY Hl HD Hm.
  pose proof (month_date_cases t) as Hc. cbv zeta in Hc.
  unfold InLeapYear in Hc. rewrite HY, <- Hl in Hc.
  assert (0 <= l <= 1) as Hl01 by (rewrite Hl; case_match; lia).
  assert (monthStart y m =
          match m with
          | 0 => 0 | 1 => 31 | 2 => 59 + l | 3 => 90 + l | 4 => 120 + l
          | 5 => 151 + l | 6 => 181 + l | 7 => 212 + l | 8 => 243 + l
          | 9 => 273 + l | 10 => 304 + l | _ => 334 + l
          end) as Hstart by (unfold monthStart; by rewrite <- Hl).
  rewrite Hstart in HD. clear Hstart Hl HY.
  generalize dependent (MonthFromTime t). intros M.
  generalize dependent (DateFromTime t). intros D.
  generalize dependent (DayWithinYear t). intros k. intros HD Hc.
  assert (m = 0 ∨ m = 1 ∨ m = 2 ∨ m = 3 ∨ m = 4 ∨ m = 5 ∨ m = 6 ∨
          m = 7 ∨ m = 8 ∨ m = 9 ∨ m = 10 ∨ m = 11) as Hcases by lia.
  unfold days_in_month.
  destruct Hcases as [->|[->|[->|[->|[->|[->|[->|[->|[->|[->|[->| ->]]]]]]]]]]];
    (split; [intros Hdt|intros ? ? ?]); lia.
Qed.

(** A day [dt] of month [m] of year [y], at [tm] within the day: when the
    month has that day, month and day are read back; the 29th of February
    of a year that is not leap is read back as the 1st of March. *)
Lemma month_date_of_day (y m dt tm : Z) :
  0 <= m <= 11 → 0 <= tm < msPerDay →
  let l := if InLeapYearOf y then 1 else 0 in
  let t := MakeDate (MakeDay y m dt) tm in
  (1 <= dt <= days_in_month m l →
     YearFromTime t = y ∧ MonthFromTime t = m ∧ DateFromTime t = dt) ∧
  (m = 1 → dt = 29 → l = 0 →
     YearFromTime t = y ∧ MonthFromTime t = 2 ∧ DateFromTime t = 1).
Proof.
  intros Hm Htm l t. unfold t. rewrite MakeDay_month by done.
  assert (0 <= l <= 1) as Hl by (unfold l; case_match; lia).
  assert (DaysInYear y = 365 + l) as Hdays
    by (unfold DaysInYear, l; case_match; lia).
  assert (monthStart y m =
          match m with
          | 0 => 0 | 1 => 31 | 2 => 59 + l | 3 => 90 + l | 4 => 120 + l
          | 5 => 151 + l | 6 => 181 + l | 7 => 212 + l | 8 => 243 + l
          | 9 => 273 + l | 10 => 304 + l | _ => 334 + l
          end) as Hstart by done.
  assert (m = 0 ∨ m = 1 ∨ m = 2 ∨ m = 3 ∨ m = 4 ∨ m = 5 ∨ m = 6 ∨
          m = 7 ∨ m = 8 ∨ m = 9 ∨ m = 10 ∨ m = 11) as Hcases by lia.
  replace (DayFromYear y + monthStart y m + dt - 1)
    with (DayFromYear y + (monthStart y m + dt - 1)) by lia.
  split.
  - intros Hdt.
    assert (0 <= monthStart y m + dt - 1 < DaysInYear y) as Hk.
    { rewrite Hstart, Hdays. unfold days_in_month in Hdt. clear Hstart.
      destruct Hcases as [->|[->|[->|[->|[->|[->|[->|[->|[->|[->|[->| ->]]]]]]]]]]];
        lia. }
    destruct (day_in_year y _ tm Hk Htm) as [HY HD].
    split; [done|].
    by apply (month_date_at _ y m dt l HY eq_refl HD Hm).
  - intros Hm1 Hdt Hl0.
    assert (0 <= monthStart y m + dt - 1 < DaysInYear y) as Hk
      by (rewrite Hstart, Hdays, Hm1, Hdt; lia).
    destruct (day_in_year y _ tm Hk Htm) as [HY HD].
    split; [done|].
    by apply (month_date_at _ y m dt l HY eq_refl HD Hm).
Qed.

End MoreCalendar.

Section MoreBirthdate.
Context `{Collaborators}.
Hypothesis random : int_in_range.

(** What [setUTCFullYear(y)] keeps of a time value: the time within the
    day, and the month and the day of month, except that the 29th of
    February becomes the 1st of March in a year that is not leap. *)
Lemma withUTCFullYear_keeps_day t y v :
  withUTCFullYear (Fin t) (Fin y) = Fin v →
  ES.TimeWithinDay v = ES.TimeWithinDay t ∧
  (ES.InLeapYearOf y = true ∨
   ¬ (ES.MonthFromTime t = 1 ∧ ES.DateFromTime t = 29) →
     ES.MonthFromTime v = ES.MonthFromTime t ∧
     ES.DateFromTime v = ES.DateFromTime t) ∧
  (ES.MonthFromTime t = 1 → ES.DateFromTime t = 29 →
   ES.InLeapYearOf y = false →
     ES.MonthFromTime v = 2 ∧ ES.DateFromTime v = 1).
Proof.
  unfold withUTCFullYear. intros Hv. apply TimeClip_Fin in Hv as [[= <-] _].
  pose proof (MonthFromTime_bounds t) as Hm.
  pose proof (TimeWithinDay_bounds t) as Htm.
  pose proof (DateFromTime_bounds t) as Hdt.
  assert (0 <= ES.InLeapYear t <= 1)
    by (unfold ES.InLeapYear; case_match; lia).
  destruct (month_date_of_day y (ES.MonthFromTime t) (ES.DateFromTime t)
              (ES.TimeWithinDay t) Hm Htm) as [Hkeep Hleap].
  split; [by apply Day_MakeDate|]. split.
  - intros Hcase. apply Hkeep. split; [lia|].
    unfold days_in_month in *.
    destruct Hcase as [-> | Hnot]; [repeat case_match; lia|].
    destruct (ES.InLeapYearOf y); repeat case_match; lia.
  - intros Hm1 Hd29 Hl. apply Hleap; [done..|]. by rewrite Hl.
Qed.


Lemma birthdate_bounds_age options d time s :
  timeValue (heap s) d = Fin time →
  - ES.maxTime <= time <= ES.maxTime →
  birthdate_bounds options age d (Fin (ES.YearFromTime time)) s
  = (Ok (age_bounds options time),
     {| heap := heap s ++ [(age_bounds options time).1;
                           (age_bounds options time).2];
        gen := gen s |}).
Proof.
  intros Hd Hrange.
  apply (birthdate_bounds_run
           {| min := min options; max := max options; mode := Some age;
              refDate := refDate options |} d time s Hd Hrange).
Qed.

Opaque withUTCFullYear Date_UTC.

Lemma year_bounds_ordered ymin ymax lo hi :
  withUTCFullYear (Date_UTC 0 0 2) (Fin ymin) = Fin lo →
  withUTCFullYear (Date_UTC 0 11 30) (Fin ymax) = Fin hi →
  representable_year ymin → representable_year ymax →
  (hi < lo ↔ ymax < ymin).
Proof.
  intros Hlo Hhi Rmin Rmax.
  destruct (year_lower_bound ymin Rmin) as (lo' & Hlo' & Ylo & Mlo & Dlo & Tlo).
  destruct (year_upper_bound ymax Rmax) as (hi' & Hhi' & Yhi & Mhi & Dhi & Thi).
  rewrite Hlo in Hlo'. rewrite Hhi in Hhi'.
  injection Hlo' as <-. injection Hhi' as <-.
  split.
  - intros Hlt. destruct (Z_lt_le_dec ymax ymin) as [|Hle]; [done|].
    exfalso. destruct (Z.eq_dec ymin ymax) as [Heq|Hne].
    + pose proof (month_date_cases lo) as Hc.
      pose proof (month_date_cases hi) as Hc'. cbv zeta in Hc, Hc'.
      assert (ES.InLeapYear lo = ES.InLeapYear hi) as Hl
        by (unfold ES.InLeapYear; by rewrite Ylo, Yhi, Heq).
      assert (0 <= ES.InLeapYear hi <= 1)
        by (unfold ES.InLeapYear; case_match; lia).
      assert (ES.Day hi <= ES.Day lo) by (unfold ES.Day, ES.msPerDay; zlia).
      unfold ES.DayWithinYear in Hc, Hc'. rewrite Ylo in Hc. rewrite Yhi in Hc'.
      rewrite Heq in Hc. lia.
    + assert (hi <= lo) as Hle' by lia.
      apply YearFromTime_mono in Hle'. lia.
  - intros Hlt. destruct (Z_lt_le_dec hi lo) as [|Hle]; [done|].
    apply YearFromTime_mono in Hle. lia.
Qed.

(** When [birthdate] throws the error of reversed bounds.  In mode ['age']
    with both bounds within the range of [Date]: exactly when
    [min > max + 1]; the ages [min = max + 1] pass the check.  In mode
    ['year'] with representable years: exactly when the year of [max] is
    before the year of [min].  The error carries [max] and [min] as the
    caller gave them. *)
Theorem birthdate_range_error_iff options s time s1 :
  reference (refDate options) s = (Ok (Fin time), s1) →
  let refYear := ES.YearFromTime time in
  let reversed :=
    result (birthdate options) s
      = Throw (InvalidRangeError (MaxBelowMin (max options) (min options))) in
  (mode options = Some age →
   ∀ lo hi,
     withUTCFullYear (Fin time) (Fin (refYear - default 80 (max options) - 1))
       = Fin lo →
     withUTCFullYear (Fin time) (Fin (refYear - default 18 (min options)))
       = Fin hi →
     (reversed ↔ default 80 (max options) + 1 < default 18 (min options))) ∧
  (default year (mode options) = year →
   let ymin := default (refYear - 80) (min options) in
   let ymax := default (refYear - 19) (max options) in
   representable_year ymin → representable_year ymax →
   (reversed ↔ ymax < ymin)).
Proof.
  intros Href refYear reversed. unfold reversed, result.
  rewrite (birthdate_run _ _ _ _ Href). unfold mode_bounds. split.
  - intros Hmode lo hi Hlo Hhi. rewrite Hmode.
    change (default year (Some age)) with age. cbn iota.
    unfold age_bounds. cbv zeta. fold refYear. rewrite Hlo, Hhi.
    cbn [num_lt].
    pose proof (withUTCFullYear_year _ _ _ Hlo) as Ylo.
    pose proof (withUTCFullYear_year _ _ _ Hhi) as Yhi.
    destruct (hi <? lo) eqn:E.
    + split; [intros _|done].
      assert (hi < lo) as Hlt by lia.
      destruct (Z_lt_le_dec (default 80 (max options) + 1)
                  (default 18 (min options))) as [|Hle]; [done|].
      exfalso.
      destruct (Z.eq_dec (default 80 (max options) + 1)
                  (default 18 (min options))) as [Heq|Hne].
      * replace (refYear - default 18 (min options))
          with (refYear - default 80 (max options) - 1) in Hhi by lia.
        rewrite Hlo in Hhi. injection Hhi as ->. lia.
      * pose proof (withUTCFullYear_lt _ _ _ _ _ Hlo Hhi). lia.
    + split; [by destruct (number_int _ _ _)|].
      intros Hlt. pose proof (withUTCFullYear_lt _ _ _ _ _ Hhi Hlo). lia.
  - intros Hmode. cbv zeta. intros Rmin Rmax.
    set (ymin := default (refYear - 80) (min options)) in *.
    set (ymax := default (refYear - 19) (max options)) in *.
    rewrite Hmode. unfold year_bounds. cbv zeta. fold refYear ymin ymax.
    destruct (year_lower_bound ymin Rmin) as (lo & Hlo & _).
    destruct (year_upper_bound ymax Rmax) as (hi & Hhi & _).
    rewrite Hlo, Hhi. cbn [num_lt].
    pose proof (year_bounds_ordered ymin ymax lo hi Hlo Hhi Rmin Rmax) as Hiff.
    destruct (hi <? lo) eqn:E.
    + split; [intros _|done]. apply Hiff. lia.
    + split; [by destruct (number_int _ _ _)|].
      intros Hlt. apply Hiff in Hlt. lia.
Qed.


(** In mode ['age'] the two bounds are the reference date moved by whole
    years: each bound has the time within the day of the reference, and
    its month and day of month, except that a reference on the 29th of
    February gives the 1st of March in a year that is not leap. *)
Theorem age_bounds_keep_calendar_day options d time s lo hi s' b :
  timeValue (heap s) d = Fin time →
  - ES.maxTime <= time <= ES.maxTime →
  birthdate_bounds options age d (Fin (ES.YearFromTime time)) s
    = (Ok (Fin lo, Fin hi), s') →
  b = lo ∨ b = hi →
  ES.TimeWithinDay b = ES.TimeWithinDay time ∧
  (ES.InLeapYearOf (ES.YearFromTime b) = true ∨
   ¬ (ES.MonthFromTime time = 1 ∧ ES.DateFromTime time = 29) →
     ES.MonthFromTime b = ES.MonthFromTime time ∧
     ES.DateFromTime b = ES.DateFromTime time) ∧
  (ES.MonthFromTime time = 1 → ES.DateFromTime time = 29 →
   ES.InLeapYearOf (ES.YearFromTime b) = false →
     ES.MonthFromTime b = 2 ∧ ES.DateFromTime b = 1).
Proof.
  intros Hd Hrange Hb Hcase.
  rewrite (birthdate_bounds_age options d time s Hd Hrange) in Hb.
  pose proof (f_equal (λ x, match x.1 with Ok p => p | Throw _ => (NaN, NaN) end)
                Hb) as Hb'.
  cbn [fst] in Hb'.
  pose proof (f_equal fst Hb') as Hlo. pose proof (f_equal snd Hb') as Hhi.
  unfold age_bounds in Hlo, Hhi. cbn [fst snd] in Hlo, Hhi.
  destruct Hcase as [-> | ->].
  - rewrite (withUTCFullYear_year _ _ _ Hlo).
    by apply withUTCFullYear_keeps_day.
  - rewrite (withUTCFullYear_year _ _ _ Hhi).
    by apply withUTCFullYear_keeps_day.
Qed.

Transparent withUTCFullYear Date_UTC.

End MoreBirthdate.

(** ** Instances of the further properties *)

(** A date between 2020 and 2030, drawn with the seed 42. *)
Lemma between_returns_within_bounds_witness :
  let o := {| from := VString "2020-01-01T00:00:00.000Z";
              to := VString "2030-01-01T00:00:00.000Z"; count := None |} in
  let s := Sample.start 42 in
  ∃ fromMs toMs r,
    truthy (from o) = true ∧ truthy (to o) = true ∧
    Date_value (H := Sample.collaborators) (heap s) (from o) = Fin fromMs ∧
    Date_value (H := Sample.collaborators) (heap s) (to o) = Fin toMs ∧
    Fin 1577836800042 = Fin r ∧ fromMs <= r <= toMs ∧
    number_int (Fin fromMs) (Fin toMs) (gen s)
      = (Fin r, gen (between (Some o) s).2).
Proof.
  intros o s.
  apply (between_returns_within_bounds (H := Sample.collaborators)
           Sample_int_in_range o s (Fin 1577836800042)).
  - simpl. lia.
  - reflexivity.
Defined.

(** A lower bound that is no date, before a valid upper bound. *)
Lemma between_invalid_bound_witness :
  let o := {| from := VString "yesterday";
              to := VString "2030-01-01T00:00:00.000Z"; count := None |} in
  result (H := Sample.collaborators) (between (Some o)) (Sample.start 42)
    = Throw (InvalidDateError "from" (VString "yesterday")).
Proof.
  intros o.
  destruct (between_invalid_bound (H := Sample.collaborators) o
              (Sample.start 42)) as [P _];
    [reflexivity | reflexivity | simpl; lia |].
  apply P. reflexivity.
Defined.


(** Within a year of 2020-01-01T00:00:00Z. *)
Lemma anytime_within_a_year_witness :
  let ref := Sample.ref2020 in
  let s := Sample.start 42 in
  (∃ r, instant (H := Sample.collaborators) (anytime (VNumber (Fin ref))) s
          = Ok (Fin r) ∧
        ref - Spec.year_ms <= r <= ref + Spec.year_ms) ∧
  (∀ v, instant (H := Sample.collaborators) (anytime (VNumber (Fin ref))) s
          = Ok v →
        ∃ r, v = Fin r ∧ ref - Spec.year_ms <= r <= ref + Spec.year_ms).
Proof.
  intros ref s.
  destruct (anytime_within_a_year (H := Sample.collaborators)
              Sample_int_in_range (VNumber (Fin ref)) s ref
              (Sample.with_ref 42)) as [P Q]; [reflexivity|].
  split; [|exact Q].
  apply P. unfold usable. vm_compute. repeat split; congruence.
Defined.

(** Zero years and minus one day, with a reference that is no date. *)
Lemma nonpositive_span_rejected_witness :
  let v := VString "not a date" in
  let s := Sample.start 42 in
  (result (H := Sample.collaborators) (past (Some 0) v) s
     = Throw (InvalidArgumentError "Years") ∧
   result (H := Sample.collaborators) (future (Some 0) v) s
     = Throw (InvalidArgumentError "Years") ∧
   result (H := Sample.collaborators) (recent (Some (-1)) v) s
     = Throw (InvalidArgumentError "Days") ∧
   result (H := Sample.collaborators) (soon (Some (-1)) v) s
     = Throw (InvalidArgumentError "Days")) ∧
  (gen (past (H := Sample.collaborators) (Some 0) v s).2 = gen s ∧
   gen (future (H := Sample.collaborators) (Some 0) v s).2 = gen s ∧
   gen (recent (H := Sample.collaborators) (Some (-1)) v s).2 = gen s ∧
   gen (soon (H := Sample.collaborators) (Some (-1)) v s).2 = gen s).
Proof.
  intros v s.
  apply (nonpositive_span_rejected (H := Sample.collaborators) 0 (-1) v s);
    lia.
Defined.

(** A reference that is no date, with one year and one day. *)
Lemma invalid_reference_rejected_witness :
  let v := VString "not a date" in
  let s := Sample.start 42 in
  let e := InvalidDateError "refDate" v in
  (∃ r, e = InvalidDateError "refDate" r) ∧
  result (H := Sample.collaborators) (anytime v) s = Throw e ∧
  result (H := Sample.collaborators) (past (Some 1) v) s = Throw e ∧
  result (H := Sample.collaborators) (future (Some 1) v) s = Throw e ∧
  result (H := Sample.collaborators) (recent (Some 1) v) s = Throw e ∧
  result (H := Sample.collaborators) (soon (Some 1) v) s = Throw e ∧
  (∀ options, refDate options = v →
              result (H := Sample.collaborators) (birthdate options) s
                = Throw e).
Proof.
  intros v s e.
  apply (invalid_reference_rejected (H := Sample.collaborators) 1 1 v s e
           (reference (H := Sample.collaborators) v s).2);
    [reflexivity | lia | lia].
Defined.

(** One second after the epoch, the windows of [past] and [recent] end at
    the number 0. *)
Lemma zero_bound_taken_for_missing_witness :
  let v := VNumber (Fin 1000) in
  let s := Sample.start 42 in
  result (H := Sample.collaborators) (past (Some 1) v) s
    = Throw MissingBoundsError ∧
  result (H := Sample.collaborators) (recent (Some 1) v) s
    = Throw MissingBoundsError.
Proof.
  intros v s.
  destruct (zero_bound_taken_for_missing (H := Sample.collaborators) 1 1 v s
              1000 (reference (H := Sample.collaborators) v s).2)
    as (P & _ & R & _); [reflexivity | lia | lia |].
  split; [apply P | apply R]; left; reflexivity.
Defined.

(** [birthdate] with reversed ages throws and leaves the seed where it
    was. *)
Lemma failed_call_keeps_random_source_witness :
  let c := call_birthdate
             {| min := Some 70; max := Some 18; mode := Some age;
                refDate := VNumber (Fin Sample.ref2020) |} in
  let s := Sample.start 42 in
  gen (after (H := Sample.collaborators) c s) = gen s.
Proof.
  intros c s.
  apply (failed_call_keeps_random_source (H := Sample.collaborators) c s
           (InvalidRangeError (MaxBelowMin (Some 18) (Some 70)))).
  - intros options. discriminate.
  - reflexivity.
Defined.

(** Four dates between 2020 and 2030 are the four draws of the seed 42. *)
Lemma betweens_returns_its_draws_witness :
  let o := {| from := VString "2020-01-01T00:00:00.000Z";
              to := VString "2030-01-01T00:00:00.000Z";
              count := Some (Fixed 4) |} in
  let s := Sample.start 42 in
  ∃ rs,
    instants (H := Sample.collaborators) (betweens (Some o)) s = Ok rs ∧
    rs ≡ₚ (draws (H := Sample.collaborators) (Z.to_nat 4)
             (Fin 1577836800000) (Fin 1893456000000) (gen s)).1 ∧
    gen (betweens (H := Sample.collaborators) (Some o) s).2
      = (draws (H := Sample.collaborators) (Z.to_nat 4)
           (Fin 1577836800000) (Fin 1893456000000) (gen s)).2.
Proof.
  intros o s.
  apply (betweens_returns_its_draws (H := Sample.collaborators)
           Sample_int_in_range o s 1577836800000 1893456000000 4 s);
    try reflexivity; lia.
Defined.

(** Ages 70 to 18 at 2020-01-01T00:00:00Z: the bounds are 2001 and 1950. *)
Lemma birthdate_range_error_iff_witness :
  let options := {| min := Some 70; max := Some 18; mode := Some age;
                    refDate := VNumber (Fin Sample.ref2020) |} in
  result (H := Sample.collaborators) (birthdate options) (Sample.start 42)
    = Throw (InvalidRangeError (MaxBelowMin (Some 18) (Some 70))).
Proof.
  intros options.
  destruct (birthdate_range_error_iff (H := Sample.collaborators) options
              (Sample.start 42) Sample.ref2020 (Sample.with_ref 42))
    as [P _]; [reflexivity|].
  apply (P eq_refl 978307200000 (-631152000000)).
  - vm_compute. reflexivity.
  - vm_compute. reflexivity.
  - simpl. lia.
Defined.


(** Ages 20 to 65 at 2020-02-29T12:34:56Z: the upper bound is
    2000-02-29T12:34:56Z, the lower bound 1954-03-01T12:34:56Z. *)
Lemma age_bounds_keep_calendar_day_witness :
  let time := 1582979696000 in
  let lo := -499778704000 in
  let hi := 951827696000 in
  (ES.TimeWithinDay hi = ES.TimeWithinDay time ∧
   ES.MonthFromTime hi = ES.MonthFromTime time ∧
   ES.DateFromTime hi = ES.DateFromTime time) ∧
  (ES.TimeWithinDay lo = ES.TimeWithinDay time ∧
   ES.MonthFromTime lo = 2 ∧ ES.DateFromTime lo = 1).
Proof.
  intros time lo hi.
  set (options := {| min := Some 20; max := Some 65; mode := Some age;
                     refDate := VDate 0%nat |}).
  set (s := @State Sample.collaborators [Fin time] 42).
  assert (timeValue (heap s) 0%nat = Fin time) as Hd by reflexivity.
  assert (- ES.maxTime <= time <= ES.maxTime) as Hrange
    by (vm_compute; split; discriminate).
  assert (birthdate_bounds (H := Sample.collaborators) options age 0%nat
            (Fin (ES.YearFromTime time)) s
          = (Ok (Fin lo, Fin hi),
             (birthdate_bounds (H := Sample.collaborators) options age 0%nat
                (Fin (ES.YearFromTime time)) s).2)) as Hb by reflexivity.
  split.
  - destruct (age_bounds_keep_calendar_day (H := Sample.collaborators)
                options 0%nat time s lo hi _ hi Hd Hrange Hb)
      as (T & K & _); [right; reflexivity|].
    split; [exact T|]. apply K. left. vm_compute. reflexivity.
  - destruct (age_bounds_keep_calendar_day (H := Sample.collaborators)
                options 0%nat time s lo hi _ lo Hd Hrange Hb)
      as (T & _ & L); [left; reflexivity|].
    split; [exact T|]. apply L; vm_compute; reflexivity.
Defined.
